(** * Financial calculation service: date-contextual filtering and aggregation

    Shallow embedding of [python-service/app.py]: [parse_date],
    [filter_by_date_context], [calculate_sales] and [calculate_profit].

    Modelling conventions.
    - A JSON scalar is a [value]: null, a string or an integer.  Amounts are
      integers ([Z]); binary floating point is not modelled, so a string is
      numeric when it is a signed decimal integer literal, and sums are the
      integers' sums.  pandas agrees with that on the amounts that
      [exact_amounts] describes: integers, strings of digits, words, nulls
      and missing keys, of a total magnitude up to 2^53, where neither a
      64-bit integer column nor a column of doubles rounds or wraps.
      Statements about totals are made for those amounts.
    - Strings are byte strings; the functions below are exact on ASCII text.
    - A pandas [Timestamp] is modelled by its calendar date: only the day,
      month and year of a parsed date are ever observed by the service
      ([.dt.month], [.dt.year], [.dt.to_period('M')], [strftime('%d-%b-%y')]
      and min/max, which order timestamps by date first).
    - A record is read through its [date], [amount] and [account] keys;
      an account is a string.  Column operations of pandas are taken at
      their element-wise meaning; where a statement lets a month or year
      filter succeed it asks for a date that parses, which gives the
      [parsed_date] column the datetime type that [.dt] needs.
    - A Python dict is an association list in insertion order.
      [calculate_sales] is the summary that the route hands to [jsonify];
      [calculate_sales_response] is what [jsonify] makes of it, with the
      keys of every object sorted.
    - A raised exception is an [Err] result; the routes turn it into the
      error response. *)

From Stdlib Require Import ZArith List String Ascii Bool Lia Permutation Sorted.
Import ListNotations.
Open Scope string_scope.
Open Scope Z_scope.

(** ** JSON scalars and exceptions *)

Inductive value : Type :=
| VNone
| VStr (s : string)
| VInt (n : Z).

Inductive exn : Type :=
| KeyError (key : string)
| ValueError.

Inductive result (A : Type) : Type :=
| Ok (a : A)
| Err (e : exn).
Arguments Ok {A} a.
Arguments Err {A} e.

Definition bind {A B} (m : result A) (k : A -> result B) : result B :=
  match m with
  | Ok a => k a
  | Err e => Err e
  end.

Notation "x <- m ;; k" := (bind m (fun x => k))
  (at level 61, m at next level, right associativity).

(** ** Characters and strings *)

Definition code (c : ascii) : Z := Z.of_N (N_of_ascii c).

Definition is_digit (c : ascii) : bool := (48 <=? code c) && (code c <=? 57).

Definition digit_value (c : ascii) : Z := code c - 48.

Definition is_space (c : ascii) : bool :=
  (code c =? 32) || ((9 <=? code c) && (code c <=? 13)).

(** [str.lower()] on ASCII letters. *)
Definition lower_char (c : ascii) : ascii :=
  if (65 <=? code c) && (code c <=? 90)
  then ascii_of_N (N_of_ascii c + 32)
  else c.

Fixpoint lower (s : string) : string :=
  match s with
  | EmptyString => EmptyString
  | String c s' => String (lower_char c) (lower s')
  end.

(** [s[:n]] *)
Fixpoint take (n : nat) (s : string) : string :=
  match n, s with
  | S n', String c s' => String c (take n' s')
  | _, _ => EmptyString
  end.

(** ['-' in s] *)
Fixpoint has_hyphen (s : string) : bool :=
  match s with
  | EmptyString => false
  | String c s' => (code c =? 45) || has_hyphen s'
  end.

Definition digit_char (d : Z) : ascii := ascii_of_N (Z.to_N (48 + d)).

(** ["%02d"] for [0 <= n < 100]. *)
Definition two_digits (n : Z) : string :=
  String (digit_char (n / 10 mod 10)) (String (digit_char (n mod 10)) EmptyString).

(** ["%04d"] for [0 <= n < 10000]. *)
Definition four_digits (n : Z) : string :=
  String (digit_char (n / 1000 mod 10))
    (String (digit_char (n / 100 mod 10)) (two_digits n)).

(** ** Calendar dates *)

Record Timestamp : Type := mkTimestamp { year : Z; month : Z; day : Z }.

Definition Timestamp_eqb (a b : Timestamp) : bool :=
  (year a =? year b) && (month a =? month b) && (day a =? day b).

Definition is_leap (y : Z) : bool :=
  (y mod 4 =? 0) && (negb (y mod 100 =? 0) || (y mod 400 =? 0)).

Definition days_in_month (y m : Z) : Z :=
  if m =? 2 then (if is_leap y then 29 else 28)
  else if (m =? 4) || (m =? 6) || (m =? 9) || (m =? 11) then 30
  else 31.

(** [datetime.date(y, m, d)] succeeds. *)
Definition valid_date (t : Timestamp) : bool :=
  (1 <=? month t) && (month t <=? 12) &&
  (1 <=? day t) && (day t <=? days_in_month (year t) (month t)).

(** Chronological order on dates. *)
Definition Timestamp_leb (a b : Timestamp) : bool :=
  (year a <? year b) ||
  ((year a =? year b) &&
   ((month a <? month b) || ((month a =? month b) && (day a <=? day b)))).

(** The days a nanosecond-resolution [Timestamp] can hold:
    1677-09-22 through 2262-04-11. *)
Definition Timestamp_min : Timestamp := mkTimestamp 1677 9 22.
Definition Timestamp_max : Timestamp := mkTimestamp 2262 4 11.

Definition in_bounds (t : Timestamp) : bool :=
  valid_date t && Timestamp_leb Timestamp_min t && Timestamp_leb t Timestamp_max.

(** [errors='coerce']: what cannot be held becomes [NaT]. *)
Definition coerce (r : option Timestamp) : option Timestamp :=
  match r with
  | Some t => if in_bounds t then Some t else None
  | None => None
  end.

(** The table of month names, [month_map] of [filter_by_date_context]; the
    [%b] directive of the C locale reads the same twelve abbreviations. *)
Definition month_map : list (string * Z) :=
  [("jan", 1); ("feb", 2); ("mar", 3); ("apr", 4); ("may", 5); ("jun", 6);
   ("jul", 7); ("aug", 8); ("sep", 9); ("oct", 10); ("nov", 11); ("dec", 12)].

Fixpoint assoc {B} (k : string) (l : list (string * B)) : option B :=
  match l with
  | [] => None
  | (k', v) :: l' => if String.eqb k k' then Some v else assoc k l'
  end.

(** ** [pd.to_datetime(s, format='%d-%b-%y', errors='coerce')]

    The format compiles to the regular expression
    [(3[0-1]|[1-2]\d|0[1-9]|[1-9]| [1-9])-(jan|...|dec)-(\d\d)], matched
    case-insensitively against the whole string.  The alternatives of the
    day are tried in order, each followed by the rest of the pattern. *)

Definition day_alternatives (s : string) : list (Z * string) :=
  match s with
  | String a (String b rest) =>
      (if (code a =? 51) && ((code b =? 48) || (code b =? 49))
       then [(30 + digit_value b, rest)] else []) ++
      (if ((code a =? 49) || (code a =? 50)) && is_digit b
       then [(10 * digit_value a + digit_value b, rest)] else []) ++
      (if (code a =? 48) && is_digit b && negb (code b =? 48)
       then [(digit_value b, rest)] else []) ++
      (if is_digit a && negb (code a =? 48)
       then [(digit_value a, String b rest)] else []) ++
      (if (code a =? 32) && is_digit b && negb (code b =? 48)
       then [(digit_value b, rest)] else [])
  | String a EmptyString =>
      if is_digit a && negb (code a =? 48)
      then [(digit_value a, EmptyString)] else []
  | EmptyString => []
  end.

(** A literal ['-'] of the format. *)
Definition expect_hyphen (s : string) : option string :=
  match s with
  | String c rest => if code c =? 45 then Some rest else None
  | EmptyString => None
  end.

(** Directive [%b]. *)
Definition match_month (s : string) : option (Z * string) :=
  match s with
  | String a (String b (String c rest)) =>
      match assoc (lower (String a (String b (String c EmptyString)))) month_map with
      | Some m => Some (m, rest)
      | None => None
      end
  | _ => None
  end.

(** Directive [%y] followed by the end of the string; values up to 68 are in
    the century 2000, the others in the century 1900. *)
Definition match_year_end (s : string) : option Z :=
  match s with
  | String a (String b EmptyString) =>
      if is_digit a && is_digit b
      then let yy := 10 * digit_value a + digit_value b in
           Some (if yy <=? 68 then 2000 + yy else 1900 + yy)
      else None
  | _ => None
  end.

Definition match_after_day (d : Z) (s : string) : option Timestamp :=
  match expect_hyphen s with
  | None => None
  | Some s1 =>
      match match_month s1 with
      | None => None
      | Some (m, s2) =>
          match expect_hyphen s2 with
          | None => None
          | Some s3 =>
              match match_year_end s3 with
              | None => None
              | Some y => Some (mkTimestamp y m d)
              end
          end
      end
  end.

Fixpoint first_match (alts : list (Z * string)) : option Timestamp :=
  match alts with
  | [] => None
  | (d, rest) :: alts' =>
      match match_after_day d rest with
      | Some t => Some t
      | None => first_match alts'
      end
  end.

Definition strptime_dmy (s : string) : option Timestamp :=
  match first_match (day_alternatives s) with
  | Some t => if valid_date t then Some t else None
  | None => None
  end.

(** ** [t.strftime('%d-%b-%y')] and [str(period)] *)

Definition month_name (m : Z) : string :=
  match m with
  | 1 => "Jan" | 2 => "Feb" | 3 => "Mar" | 4 => "Apr"
  | 5 => "May" | 6 => "Jun" | 7 => "Jul" | 8 => "Aug"
  | 9 => "Sep" | 10 => "Oct" | 11 => "Nov" | _ => "Dec"
  end.

Definition strftime_dmy (t : Timestamp) : string :=
  two_digits (day t) ++ "-" ++ month_name (month t) ++ "-" ++
  two_digits (year t mod 100).

(** A monthly period, [(year, month)], rendered ["YYYY-MM"]. *)
Definition Period : Type := (Z * Z)%type.

Definition to_period (t : Timestamp) : Period := (year t, month t).

Definition Period_eqb (p q : Period) : bool :=
  (fst p =? fst q) && (snd p =? snd q).

Definition Period_ltb (p q : Period) : bool :=
  (fst p <? fst q) || ((fst p =? fst q) && (snd p <? snd q)).

Definition Period_str (p : Period) : string :=
  four_digits (fst p) ++ "-" ++ two_digits (snd p).

(** ** Numeric literals

    [scan_digits] reads the digits of a literal up to the end of the string,
    allowing trailing white space; with [underscores] a single underscore may
    separate two digits, as Python's [int] accepts. *)

Fixpoint all_space (s : string) : bool :=
  match s with
  | EmptyString => true
  | String c s' => is_space c && all_space s'
  end.

Fixpoint lstrip (s : string) : string :=
  match s with
  | EmptyString => EmptyString
  | String c s' => if is_space c then lstrip s' else s
  end.

Fixpoint scan_digits (underscores : bool) (acc : Z) (s : string) : option Z :=
  match s with
  | EmptyString => Some acc
  | String c s' =>
      if is_digit c then scan_digits underscores (10 * acc + digit_value c) s'
      else if underscores && (code c =? 95) then
        match s' with
        | String d _ => if is_digit d then scan_digits underscores acc s' else None
        | EmptyString => None
        end
      else if all_space s then Some acc else None
  end.

Definition signed_literal (underscores : bool) (s : string) : option Z :=
  let body (sign : Z) (t : string) : option Z :=
    match t with
    | String d _ =>
        if is_digit d
        then option_map (Z.mul sign) (scan_digits underscores 0 t)
        else None
    | EmptyString => None
    end in
  match lstrip s with
  | String c t =>
      if code c =? 45 then body (-1) t
      else if code c =? 43 then body 1 t
      else body 1 (String c t)
  | EmptyString => None
  end.

(** [int(s)]; [None] stands for the [ValueError]. *)
Definition py_int (s : string) : option Z := signed_literal true s.

(** One element of [pd.to_numeric(column, errors='coerce')]; [None] is NaN.
    Of the strings pandas reads as numbers, the integer literals are the
    ones modelled. *)
Definition to_numeric (v : value) : option Z :=
  match v with
  | VNone => None
  | VStr s => signed_literal false s
  | VInt n => Some n
  end.

Definition fillna (default : Z) (x : option Z) : Z :=
  match x with
  | Some n => n
  | None => default
  end.

(** ** Request payloads *)

(** A transaction record of the request; [None] is an absent key.  An
    account is a string; an absent and a null account are both [None]. *)
Record record : Type := mkRecord {
  date : option value;
  amount : option value;
  account : option string
}.

Record DateContext : Type := mkDateContext {
  isDateSpecific : bool;
  months : list value;
  years : list value
}.

(** ** Data frames

    The frame of a request after [df['amount']] has been made numeric.  An
    absent entry of the [date] column is [VNone] (NaN). *)

Record row : Type := mkRow {
  row_date : value;
  row_amount : Z;
  row_account : option string
}.

Record DataFrame : Type := mkDataFrame {
  has_date : bool;
  has_amount : bool;
  has_account : bool;
  rows : list row
}.

(** [df.empty]: no rows, or no columns. *)
Definition empty (df : DataFrame) : bool :=
  match rows df with
  | [] => true
  | _ => negb (has_date df || has_amount df || has_account df)
  end.

Definition is_some {A} (o : option A) : bool :=
  match o with
  | Some _ => true
  | None => false
  end.

Definition has_key {A} (field : record -> option A) (data : list record) : bool :=
  existsb (fun r => is_some (field r)) data.

Definition numeric_amount (r : record) : Z :=
  fillna 0 (match amount r with
            | Some v => to_numeric v
            | None => None
            end).

Definition to_row (r : record) : row :=
  {| row_date := match date r with Some v => v | None => VNone end;
     row_amount := numeric_amount r;
     row_account := account r |}.

(** [df = pd.DataFrame(data)] followed by
    [df['amount'] = pd.to_numeric(df['amount'], errors='coerce').fillna(0)]. *)
Definition numeric_frame (data : list record) : result DataFrame :=
  if has_key amount data
  then Ok {| has_date := has_key date data;
             has_amount := true;
             has_account := has_key account data;
             rows := map to_row data |}
  else Err (KeyError "amount").

Definition len {A} (l : list A) : Z := Z.of_nat (List.length l).

(** [column.sum()], for amounts whose sums are exact. *)
Definition sum (l : list Z) : Z := fold_right Z.add 0 l.

Definition sum_amount (l : list row) : Z := sum (map row_amount l).

Definition isin (x : Z) (l : list Z) : bool := existsb (Z.eqb x) l.

(** ** Sorting and grouping *)

Section Sorting.
Context {A : Type} (leb : A -> A -> bool).

Fixpoint insert_sorted (a : A) (l : list A) : list A :=
  match l with
  | [] => [a]
  | b :: l' => if leb a b then a :: l else b :: insert_sorted a l'
  end.

(** A stable sort: equal elements keep their order. *)
Definition sort (l : list A) : list A := fold_right insert_sorted [] l.
End Sorting.

Section Grouping.
Context {K A : Type} (eqb leb : K -> K -> bool).

Fixpoint unique (l : list K) : list K :=
  match l with
  | [] => []
  | k :: l' => if existsb (eqb k) l' then unique l' else k :: unique l'
  end.

(** [groupby]: the distinct keys in ascending order, each with the
    elements that carry it, in their original order. *)
Definition groupby (key : A -> K) (l : list A) : list (K * list A) :=
  map (fun k => (k, filter (fun a => eqb (key a) k) l))
      (sort leb (unique (map key l))).
End Grouping.

(** ** Dictionaries in insertion order *)

Fixpoint dict_set {B} (k : string) (v : B) (d : list (string * B))
  : list (string * B) :=
  match d with
  | [] => [(k, v)]
  | (k', v') :: d' =>
      if String.eqb k k' then (k, v) :: d' else (k', v') :: dict_set k v d'
  end.

Definition dict_of {B} (items : list (string * B)) : list (string * B) :=
  fold_left (fun d kv => dict_set (fst kv) (snd kv) d) items [].

(** ** Results *)

Record MonthEntry : Type := mkMonthEntry { entry_amount : Z; entry_count : Z }.

Record SalesSummary : Type := mkSalesSummary {
  total_amount : Z;
  voucher_count : Z;
  monthly_breakdown : list (string * MonthEntry);
  customer_breakdown : list (string * Z);
  date_range : string
}.

Record ProfitEntry : Type := mkProfitEntry {
  entry_revenue : Z;
  entry_expense : Z;
  entry_profit : Z
}.

Record ProfitSummary : Type := mkProfitSummary {
  total_revenue : Z;
  total_expenses : Z;
  net_profit : Z;
  profit_breakdown : list (string * ProfitEntry);
  revenue_entries : Z;
  expense_entries : Z
}.

Inductive entry_type : Type := Revenue | Expense.

Definition entry_type_eqb (a b : entry_type) : bool :=
  match a, b with
  | Revenue, Revenue | Expense, Expense => true
  | _, _ => false
  end.

(** An element of [all_data] of [calculate_profit]. *)
Record tagged : Type := mkTagged {
  tagged_date : value;
  tagged_amount : Z;
  tagged_type : entry_type
}.

(** [jsonify(summary)].  The application is created by [Flask(__name__)] and
    sets no JSON option, so the body is written with Flask's default
    [sort_keys]: every object lists its keys in ascending order of the key
    strings (compared character by character).  The summary has its five
    fixed keys as record fields; its two breakdowns are the objects whose
    keys come from the data. *)
Definition sort_keys {B} (d : list (string * B)) : list (string * B) :=
  sort (fun a b => String.leb (fst a) (fst b)) d.

Definition jsonify (s : SalesSummary) : SalesSummary :=
  {| total_amount := total_amount s;
     voucher_count := voucher_count s;
     monthly_breakdown := sort_keys (monthly_breakdown s);
     customer_breakdown := sort_keys (customer_breakdown s);
     date_range := date_range s |}.

Definition Period_leb (p q : Period) : bool := negb (Period_ltb q p).

Definition min_date (a b : Timestamp) : Timestamp :=
  if Timestamp_leb a b then a else b.

Definition max_date (a b : Timestamp) : Timestamp :=
  if Timestamp_leb a b then b else a.

(** ** The service

    [to_datetime_generic] is pandas' format-free [pd.to_datetime(x)], the
    lenient parse that [parse_date] falls back on for a value without a
    hyphen.  It is a parameter of the development. *)

Section Service.
Variable to_datetime_generic : value -> option Timestamp.

(** [parse_date]; [None] is both [None] and [NaT], which [dropna] drops
    alike.  The bare [except] makes the function total. *)
Definition parse_date (date_str : value) : option Timestamp :=
  match date_str with
  | VNone => None
  | VStr s =>
      if String.eqb s EmptyString then None
      else if has_hyphen s then coerce (strptime_dmy s)
      else coerce (to_datetime_generic date_str)
  | VInt n =>
      if n =? 0 then None
      else coerce (to_datetime_generic date_str)
  end.

(** [df.dropna(subset=['parsed_date'])] after
    [df['parsed_date'] = df['date'].apply(parse_date)]. *)
Definition dropna (l : list row) : list row :=
  filter (fun r => is_some (parse_date (row_date r))) l.

(** [df[p(df['parsed_date'])]] on a frame whose [parsed_date] column is the
    parse of its [date] column. *)
Definition select (p : Timestamp -> bool) (l : list row) : list row :=
  filter (fun r => match parse_date (row_date r) with
                   | Some t => p t
                   | None => false
                   end) l.

(** The elements with a parsed date, paired with it. *)
Definition with_dates {A} (get_date : A -> value) (l : list A)
  : list (Timestamp * A) :=
  flat_map (fun a => match parse_date (get_date a) with
                     | Some t => [(t, a)]
                     | None => []
                     end) l.

(** One turn of the loop over [date_context['months']]: what is appended
    to [month_numbers]. *)
Definition month_number (m : value) : list Z :=
  match m with
  | VStr s =>
      match assoc (take 3 (lower s)) month_map with
      | Some month_num => [month_num]
      | None => []
      end
  | VInt n => [n]
  | VNone => []
  end.

Definition month_numbers (ms : list value) : list Z :=
  flat_map month_number ms.

(** One turn of the loop over [date_context['years']]. *)
Definition year_number (y : value) : result (list Z) :=
  match y with
  | VStr s =>
      match py_int s with
      | Some n => Ok [if (String.length s =? 2)%nat then 2000 + n else n]
      | None => Err ValueError
      end
  | VInt n => Ok [n]
  | VNone => Ok []
  end.

Fixpoint year_numbers (ys : list value) : result (list Z) :=
  match ys with
  | [] => Ok []
  | y :: ys' =>
      a <- year_number y ;;
      b <- year_numbers ys' ;;
      Ok (a ++ b)%list
  end.

Definition with_rows (df : DataFrame) (l : list row) : DataFrame :=
  {| has_date := has_date df;
     has_amount := has_amount df;
     has_account := has_account df;
     rows := l |}.

Definition filter_by_date_context (df : DataFrame)
    (date_context : option DateContext) : result DataFrame :=
  match date_context with
  | None => Ok df
  | Some ctx =>
      if negb (isDateSpecific ctx) then Ok df
      else if negb (has_date df) then Err (KeyError "date")
      else
        let df1 := dropna (rows df) in
        let df2 :=
          match months ctx with
          | [] => df1
          | _ =>
              match month_numbers (months ctx) with
              | [] => df1
              | ms => select (fun t => isin (month t) ms) df1
              end
          end in
        match years ctx with
        | [] => Ok (with_rows df df2)
        | _ =>
            ys <- year_numbers (years ctx) ;;
            match ys with
            | [] => Ok (with_rows df df2)
            | _ => Ok (with_rows df (select (fun t => isin (year t) ys) df2))
            end
        end
  end.

(** [monthly_breakdown] of [calculate_sales]: one entry per period of
    [df_with_dates], stored under [str(period)]. *)
Definition sales_by_month (df_with_dates : list (Timestamp * row))
  : list (string * MonthEntry) :=
  dict_of
    (map (fun pg : Period * list (Timestamp * row) =>
            (Period_str (fst pg),
             {| entry_amount := sum (map (fun tr => row_amount (snd tr)) (snd pg));
                entry_count := len (snd pg) |}))
         (groupby Period_eqb Period_leb
                  (fun tr : Timestamp * row => to_period (fst tr))
                  df_with_dates)).

(** The rows with an account, paired with it; [groupby] leaves the rows
    with a missing key out. *)
Definition by_account (l : list row) : list (string * row) :=
  flat_map (fun r => match row_account r with
                     | Some k => [(k, r)]
                     | None => []
                     end) l.

(** [df.groupby('account')['amount'].sum()] *)
Definition account_sums (l : list row) : list (string * Z) :=
  map (fun kg : string * list (string * row) =>
         (fst kg, sum (map (fun kr => row_amount (snd kr)) (snd kg))))
      (groupby String.eqb String.leb (fun kr : string * row => fst kr)
               (by_account l)).

(** [.sort_values(ascending=False)].  pandas leaves the order of equal sums
    to its sorting algorithm; here they stay in key order. *)
Definition sort_values_desc (l : list (string * Z)) : list (string * Z) :=
  sort (fun a b => snd b <=? snd a) l.

Definition top_customers (l : list row) : list (string * Z) :=
  dict_of (firstn 10 (sort_values_desc (account_sums l))).

Definition format_range (df_with_dates : list (Timestamp * row)) : string :=
  match df_with_dates with
  | [] => "No dates"
  | (t, _) :: rest =>
      let dates := map fst rest in
      strftime_dmy (fold_left min_date dates t) ++ " to " ++
      strftime_dmy (fold_left max_date dates t)
  end.

(** The body of [calculate_sales] up to the summary it passes to
    [jsonify]. *)
Definition calculate_sales (sales_data : list record)
    (date_context : option DateContext) : result SalesSummary :=
  match sales_data with
  | [] =>
      Ok {| total_amount := 0;
            voucher_count := 0;
            monthly_breakdown := [];
            customer_breakdown := [];
            date_range := "No data" |}
  | _ =>
      df0 <- numeric_frame sales_data ;;
      df <- filter_by_date_context df0 date_context ;;
      if negb (has_date df) then Err (KeyError "date")
      else
        let df_with_dates := with_dates row_date (rows df) in
        Ok {| total_amount := sum_amount (rows df);
              voucher_count := len (rows df);
              monthly_breakdown := sales_by_month df_with_dates;
              customer_breakdown :=
                if has_account df then top_customers (rows df) else [];
              date_range := format_range df_with_dates |}
  end.

(** [pd.DataFrame(data) if data else pd.DataFrame()], made numeric and
    filtered unless it is empty. *)
Definition prepare (data : list record)
    (date_context : option DateContext) : result DataFrame :=
  let df := {| has_date := has_key date data;
               has_amount := has_key amount data;
               has_account := has_key account data;
               rows := map to_row data |} in
  if empty df then Ok df
  else
    df0 <- numeric_frame data ;;
    filter_by_date_context df0 date_context.

(** The loop over [df.iterrows()] that fills [all_data]. *)
Definition tag_rows (ty : entry_type) (df : DataFrame) : result (list tagged) :=
  if empty df then Ok []
  else if negb (has_date df) then Err (KeyError "date")
  else Ok (map (fun r => {| tagged_date := row_date r;
                            tagged_amount := row_amount r;
                            tagged_type := ty |}) (rows df)).

Definition sum_of_type (ty : entry_type) (g : list (Timestamp * tagged)) : Z :=
  sum (map (fun ta => tagged_amount (snd ta))
           (filter (fun ta => entry_type_eqb (tagged_type (snd ta)) ty) g)).

Definition profit_by_month (combined : list (Timestamp * tagged))
  : list (string * ProfitEntry) :=
  dict_of
    (map (fun pg : Period * list (Timestamp * tagged) =>
            let month_revenue := sum_of_type Revenue (snd pg) in
            let month_expense := sum_of_type Expense (snd pg) in
            (Period_str (fst pg),
             {| entry_revenue := month_revenue;
                entry_expense := month_expense;
                entry_profit := month_revenue - month_expense |}))
         (groupby Period_eqb Period_leb
                  (fun ta : Timestamp * tagged => to_period (fst ta))
                  combined)).

Definition calculate_profit (revenue_data expense_data : list record)
    (date_context : option DateContext) : result ProfitSummary :=
  revenue_df <- prepare revenue_data date_context ;;
  expense_df <- prepare expense_data date_context ;;
  let total_revenue := if empty revenue_df then 0 else sum_amount (rows revenue_df) in
  let total_expenses := if empty expense_df then 0 else sum_amount (rows expense_df) in
  revenue_rows <- tag_rows Revenue revenue_df ;;
  expense_rows <- tag_rows Expense expense_df ;;
  let all_data := (revenue_rows ++ expense_rows)%list in
  Ok {| total_revenue := total_revenue;
        total_expenses := total_expenses;
        net_profit := total_revenue - total_expenses;
        profit_breakdown := profit_by_month (with_dates tagged_date all_data);
        revenue_entries := len (rows revenue_df);
        expense_entries := len (rows expense_df) |}.

(** What the route returns: the summary of [calculate_sales], serialised. *)
Definition calculate_sales_response (sales_data : list record)
    (date_context : option DateContext) : result SalesSummary :=
  s <- calculate_sales sales_data date_context ;;
  Ok (jsonify s).
End Service.


(** ** Vocabulary of the statements *)

(** No lenient parse at all: the generic parser that recognises nothing. *)
Definition no_generic : value -> option Timestamp := fun _ => None.

(** The date filter is off: no context, or [isDateSpecific] false. *)
Definition inactive (date_context : option DateContext) : Prop :=
  match date_context with
  | None => True
  | Some ctx => isDateSpecific ctx = false
  end.

Definition active (date_context : option DateContext) : Prop :=
  exists ctx, date_context = Some ctx /\ isDateSpecific ctx = true.

(** The century rule of [%y]. *)
Definition pivot_year (yy : Z) : Z :=
  if yy <=? 68 then 2000 + yy else 1900 + yy.

(** Formatting a date and reading it back gives the date. *)
Definition roundtrip_ok (t : Timestamp) : bool :=
  has_hyphen (strftime_dmy t) &&
  match coerce (strptime_dmy (strftime_dmy t)) with
  | Some t' => Timestamp_eqb t' t
  | None => false
  end.

Definition range (lo : Z) (n : nat) : list Z :=
  map (fun i => lo + Z.of_nat i) (seq 0 n).

(** The total of the [count] fields of a monthly breakdown. *)
Definition total_count (d : list (string * MonthEntry)) : Z :=
  sum (map (fun e => entry_count (snd e)) d).

(** Entries in descending order of their amounts. *)
Definition descending (d : list (string * Z)) : Prop :=
  StronglySorted (fun a b => snd a >= snd b) d.

(** The summed amount of an account over a set of rows. *)
Definition account_total (k : string) (l : list row) : Z :=
  sum_amount (filter (fun r => match row_account r with
                               | Some k' => String.eqb k' k
                               | None => false
                               end) l).

(** The requests of the scenarios. *)
Definition scenario_sales : list record :=
  [ {| date := Some (VStr "01-Jan-23"); amount := Some (VStr "100");
       account := Some "A" |};
    {| date := Some (VStr "15-Jan-23"); amount := Some (VInt 200);
       account := Some "B" |};
    {| date := Some (VStr "01-Feb-23"); amount := Some (VInt 50);
       account := Some "A" |} ].

Definition scenario_jan : option DateContext :=
  Some {| isDateSpecific := true; months := [VStr "jan"]; years := [] |}.

Definition scenario_revenue : list record :=
  [ {| date := Some (VStr "01-Jan-23"); amount := Some (VInt 500);
       account := None |} ].

Definition scenario_expense : list record :=
  [ {| date := Some (VStr "01-Jan-23"); amount := Some (VInt 200);
       account := None |} ].

(** A lenient parser that would read an ISO date. *)
Definition iso_generic (v : value) : option Timestamp :=
  match v with
  | VStr s => if String.eqb s "2023-10-15"
              then Some (mkTimestamp 2023 10 15) else None
  | _ => None
  end.

(** What the scenarios are expected to return. *)
Definition scenario_summary : SalesSummary :=
  {| total_amount := 350;
     voucher_count := 3;
     monthly_breakdown :=
       [("2023-01", {| entry_amount := 300; entry_count := 2 |});
        ("2023-02", {| entry_amount := 50; entry_count := 1 |})];
     customer_breakdown := [("B", 200); ("A", 150)];
     date_range := "01-Jan-23 to 01-Feb-23" |}.

Definition jan_summary : SalesSummary :=
  {| total_amount := 300;
     voucher_count := 2;
     monthly_breakdown :=
       [("2023-01", {| entry_amount := 300; entry_count := 2 |})];
     customer_breakdown := [("B", 200); ("A", 100)];
     date_range := "01-Jan-23 to 15-Jan-23" |}.

Definition scenario_profit : ProfitSummary :=
  {| total_revenue := 500;
     total_expenses := 200;
     net_profit := 300;
     profit_breakdown :=
       [("2023-01", {| entry_revenue := 500; entry_expense := 200;
                       entry_profit := 300 |})];
     revenue_entries := 1;
     expense_entries := 1 |}.

(** The frame of the sales scenario, and what the January filter keeps. *)
Definition scenario_frame : DataFrame :=
  {| has_date := true; has_amount := true; has_account := true;
     rows := map to_row scenario_sales |}.

Definition jan_frame : DataFrame :=
  {| has_date := true; has_amount := true; has_account := true;
     rows := firstn 2 (map to_row scenario_sales) |}.

(** A context whose months normalise to nothing. *)
Definition unknown_months : DateContext :=
  {| isDateSpecific := true; months := [VStr "xyz"; VNone]; years := [] |}.

(** The rows an active filter keeps, for the normalised months [ms] and
    years [ys]; an empty list does not restrict. *)
Definition keeps (gen : value -> option Timestamp) (ms ys : list Z)
    (r : row) : bool :=
  match parse_date gen (row_date r) with
  | Some t =>
      match ms with [] => true | _ => isin (month t) ms end &&
      match ys with [] => true | _ => isin (year t) ys end
  | None => false
  end.

(** The date of a record as the frame holds it. *)
Definition record_date (r : record) : value := row_date (to_row r).

(** The total of the [amount] fields of a monthly breakdown. *)
Definition total_month_amount (d : list (string * MonthEntry)) : Z :=
  sum (map (fun e => entry_amount (snd e)) d).

(** The total of the [profit] fields of a monthly profit breakdown. *)
Definition total_month_profit (d : list (string * ProfitEntry)) : Z :=
  sum (map (fun e => entry_profit (snd e)) d).

(** The date column holds a DD-Mon-YY style string (one with a hyphen). *)
Definition hyphen_dated (r : row) : Prop :=
  exists s, row_date r = VStr s /\ has_hyphen s = true.

(** Requests and frames of the examples. *)
Definition jan_context : DateContext :=
  {| isDateSpecific := true; months := [VStr "jan"]; years := [] |}.

Definition month_13 : DateContext :=
  {| isDateSpecific := true; months := [VInt 13]; years := [] |}.

Definition year_99 : DateContext :=
  {| isDateSpecific := true; months := []; years := [VStr "99"] |}.

Definition year_abc : DateContext :=
  {| isDateSpecific := true; months := []; years := [VStr "abc"] |}.

Definition row_1999 : row :=
  {| row_date := VStr "15-Oct-99"; row_amount := 10; row_account := None |}.

Definition frame_1999 : DataFrame :=
  {| has_date := true; has_amount := true; has_account := false;
     rows := [row_1999] |}.

Definition no_rows (df : DataFrame) : DataFrame :=
  {| has_date := has_date df; has_amount := has_amount df;
     has_account := has_account df; rows := [] |}.

(** Two records dated in ISO form, which the strict format rejects. *)
Definition iso_sales : list record :=
  [ {| date := Some (VStr "2023-10-15"); amount := Some (VInt 10);
       account := None |};
    {| date := Some (VStr "2023-11-01"); amount := Some (VInt 20);
       account := None |} ].

Definition sale (k : string) (n : Z) : record :=
  {| date := Some (VStr "01-Jan-23"); amount := Some (VInt n);
     account := Some k |}.

(** Eleven accounts, with amounts 1 to 11. *)
Definition eleven_accounts : list record :=
  [ sale "c01" 1; sale "c02" 2; sale "c03" 3; sale "c04" 4; sale "c05" 5;
    sale "c06" 6; sale "c07" 7; sale "c08" 8; sale "c09" 9; sale "c10" 10;
    sale "c11" 11 ].

Definition eleven_frame : DataFrame :=
  {| has_date := true; has_amount := true; has_account := true;
     rows := map to_row eleven_accounts |}.

Definition eleven_summary : SalesSummary :=
  {| total_amount := 66;
     voucher_count := 11;
     monthly_breakdown :=
       [("2023-01", {| entry_amount := 66; entry_count := 11 |})];
     customer_breakdown :=
       [("c11", 11); ("c10", 10); ("c09", 9); ("c08", 8); ("c07", 7);
        ("c06", 6); ("c05", 5); ("c04", 4); ("c03", 3); ("c02", 2)];
     date_range := "01-Jan-23 to 01-Jan-23" |}.

Definition revenue_summary : SalesSummary :=
  {| total_amount := 500;
     voucher_count := 1;
     monthly_breakdown :=
       [("2023-01", {| entry_amount := 500; entry_count := 1 |})];
     customer_breakdown := [];
     date_range := "01-Jan-23 to 01-Jan-23" |}.

Definition revenue_only_profit : ProfitSummary :=
  {| total_revenue := 500;
     total_expenses := 0;
     net_profit := 500;
     profit_breakdown :=
       [("2023-01", {| entry_revenue := 500; entry_expense := 0;
                       entry_profit := 500 |})];
     revenue_entries := 1;
     expense_entries := 0 |}.

(** Amounts the integers represent exactly.  A JSON integer and a string of
    decimal digits count for their value; a missing key, a null and a word
    (letters only, and no spelling of infinity, which pandas reads as a
    number) count for 0.  Every other amount (a fraction, an exponent, a
    sign, blanks) is left out: [None]. *)
Definition is_letter (c : ascii) : bool :=
  ((65 <=? code c) && (code c <=? 90)) || ((97 <=? code c) && (code c <=? 122)).

Fixpoint all_letters (s : string) : bool :=
  match s with
  | EmptyString => true
  | String c s' => is_letter c && all_letters s'
  end.

Definition is_word (s : string) : bool :=
  all_letters s && negb (String.eqb (lower s) "inf") &&
  negb (String.eqb (lower s) "infinity").

Fixpoint all_digits (s : string) : bool :=
  match s with
  | EmptyString => true
  | String c s' => (48 <=? code c) && (code c <=? 57) && all_digits s'
  end.

Fixpoint decimal (acc : Z) (s : string) : Z :=
  match s with
  | EmptyString => acc
  | String c s' => decimal (10 * acc + (code c - 48)) s'
  end.

Definition coerced (r : record) : option Z :=
  match amount r with
  | None | Some VNone => Some 0
  | Some (VInt n) => Some n
  | Some (VStr s) =>
      if is_word s then Some 0
      else if all_digits s then Some (decimal 0 s)
      else None
  end.

Definition total (l : list Z) : Z := fold_right Z.add 0 l.

Definition magnitude (l : list Z) : Z :=
  fold_right (fun a acc => Z.abs a + acc) 0 l.

(** The records have the integer amounts [amounts], and these are small
    enough for every sum of some of them to be exact both in a 64-bit
    integer column and in a column of doubles. *)
Definition exact_amounts (data : list record) (amounts : list Z) : Prop :=
  map coerced data = map Some amounts /\ magnitude amounts <= 2 ^ 53.

(** The amount of the record is missing, null or a word. *)
Definition not_a_number (r : record) : Prop :=
  match amount r with
  | None | Some VNone => True
  | Some (VStr s) => is_word s = true
  | Some (VInt _) => False
  end.

(** The amounts of the records whose date parses. *)
Definition dated_amounts (gen : value -> option Timestamp)
    (data : list record) (amounts : list Z) : list Z :=
  map snd (filter (fun ra => is_some (parse_date gen (record_date (fst ra))))
                  (combine data amounts)).

Definition bad_amount_record : record :=
  {| date := Some (VStr "20-Jan-23"); amount := Some (VStr "abc");
     account := Some "A" |}.

Definition bad_amount_summary : SalesSummary :=
  {| total_amount := 350;
     voucher_count := 4;
     monthly_breakdown :=
       [("2023-01", {| entry_amount := 300; entry_count := 3 |});
        ("2023-02", {| entry_amount := 50; entry_count := 1 |})];
     customer_breakdown := [("B", 200); ("A", 150)];
     date_range := "01-Jan-23 to 01-Feb-23" |}.


(** The scenario as the route returns it. *)
Definition scenario_response : SalesSummary :=
  {| total_amount := 350;
     voucher_count := 3;
     monthly_breakdown :=
       [("2023-01", {| entry_amount := 300; entry_count := 2 |});
        ("2023-02", {| entry_amount := 50; entry_count := 1 |})];
     customer_breakdown := [("A", 150); ("B", 200)];
     date_range := "01-Jan-23 to 01-Feb-23" |}.

(** Some date of the rows parses, so that pandas gives the [parsed_date]
    column a datetime type and its [.dt] accessor can be used. *)
Definition datetimelike (gen : value -> option Timestamp) (l : list row)
  : Prop :=
  exists r t, In r l /\ parse_date gen (row_date r) = Some t.

(** * Properties *)
Example strptime_15_Oct_23 :
  strptime_dmy "15-Oct-23" = Some (mkTimestamp 2023 10 15).
Proof. reflexivity. Qed.

Example strptime_iso : strptime_dmy "2023-10-15" = None.
Proof. reflexivity. Qed.

Example strptime_1_jan : strptime_dmy "1-JAN-70" = Some (mkTimestamp 1970 1 1).
Proof. reflexivity. Qed.

Example strptime_29_feb : strptime_dmy "29-Feb-23" = None.
Proof. reflexivity. Qed.

Example strftime_example :
  strftime_dmy (mkTimestamp 2023 2 1) = "01-Feb-23".
Proof. reflexivity. Qed.

Example Period_str_example : Period_str (2023, 1) = "2023-01".
Proof. reflexivity. Qed.

Example strptime_two_digit_year_1999 :
  strptime_dmy "15-Oct-99" = Some (mkTimestamp 1999 10 15).
Proof. reflexivity. Qed.

Example to_numeric_abc : fillna 0 (to_numeric (VStr "abc")) = 0.
Proof. reflexivity. Qed.

Example to_numeric_100 : to_numeric (VStr "100") = Some 100.
Proof. reflexivity. Qed.

Example py_int_23 : py_int "23" = Some 23.
Proof. reflexivity. Qed.

Example month_number_January : month_number (VStr "January") = [1].
Proof. reflexivity. Qed.

(** ** Sorting *)

Section SortingFacts.
Context {A : Type} (leb : A -> A -> bool).

Lemma insert_sorted_Permutation (a : A) (l : list A) :
  Permutation (insert_sorted leb a l) (a :: l).
Proof.
  induction l as [| b l IH]; simpl.
  - apply Permutation_refl.
  - destruct (leb a b).
    + apply Permutation_refl.
    + eapply perm_trans; [apply perm_skip, IH | apply perm_swap].
Qed.

Lemma sort_Permutation (l : list A) : Permutation (sort leb l) l.
Proof.
  induction l as [| a l IH]; simpl.
  - constructor.
  - eapply perm_trans; [apply insert_sorted_Permutation |].
    now apply perm_skip.
Qed.

Hypothesis leb_total : forall a b, leb a b = true \/ leb b a = true.

Lemma insert_sorted_Sorted (a : A) (l : list A) :
  Sorted (fun x y => leb x y = true) l ->
  Sorted (fun x y => leb x y = true) (insert_sorted leb a l).
Proof.
  induction l as [| b l IH]; simpl; intros Hs.
  - repeat constructor.
  - destruct (leb a b) eqn:Hab.
    + constructor; [assumption | now constructor].
    + inversion Hs as [| ? ? Hl Hhd]; subst.
      constructor; [now apply IH |].
      destruct l as [| c l]; simpl.
      * constructor. destruct (leb_total a b) as [H | H]; [congruence | exact H].
      * destruct (leb a c).
        -- constructor. destruct (leb_total a b) as [H | H]; [congruence | exact H].
        -- inversion Hhd; subst. now constructor.
Qed.

Lemma sort_Sorted (l : list A) :
  Sorted (fun x y => leb x y = true) (sort leb l).
Proof.
  induction l as [| a l IH]; simpl.
  - constructor.
  - now apply insert_sorted_Sorted.
Qed.
End SortingFacts.

Lemma StronglySorted_firstn {A} (R : A -> A -> Prop) (n : nat) (l : list A) :
  StronglySorted R l -> StronglySorted R (firstn n l).
Proof.
  revert l; induction n as [| n IH]; intros [| a l] Hs; simpl; try constructor.
  - inversion Hs; subst. now apply IH.
  - inversion Hs as [| ? ? _ Hall]; subst.
    rewrite Forall_forall in *. intros x Hx. apply Hall.
    rewrite <- (firstn_skipn n l). apply in_or_app. now left.
Qed.

Lemma In_firstn {A} (n : nat) (l : list A) (x : A) :
  In x (firstn n l) -> In x l.
Proof.
  intros Hx. rewrite <- (firstn_skipn n l). apply in_or_app. now left.
Qed.

Lemma NoDup_map_firstn {A B} (f : A -> B) (n : nat) (l : list A) :
  NoDup (map f l) -> NoDup (map f (firstn n l)).
Proof.
  intros Hnd. rewrite <- (firstn_skipn n l), map_app in Hnd.
  now apply NoDup_app_remove_r in Hnd.
Qed.

(** ** Grouping *)

Section GroupingFacts.
Context {K A : Type} (eqb leb : K -> K -> bool).
Hypothesis eqb_spec : forall a b, eqb a b = true <-> a = b.

Lemma existsb_eqb_In (k : K) (l : list K) :
  existsb (eqb k) l = true <-> In k l.
Proof.
  rewrite existsb_exists. split.
  - intros [x [Hx He]]. apply eqb_spec in He. now subst.
  - intros Hk. exists k. split; [assumption | now apply eqb_spec].
Qed.

Lemma unique_In (k : K) (l : list K) : In k (unique eqb l) <-> In k l.
Proof.
  induction l as [| a l IH]; simpl; [tauto |].
  destruct (existsb (eqb a) l) eqn:He; simpl; rewrite IH.
  - apply existsb_eqb_In in He. split; [tauto |].
    intros [-> | H]; assumption.
  - tauto.
Qed.

Lemma unique_NoDup (l : list K) : NoDup (unique eqb l).
Proof.
  induction l as [| a l IH]; simpl; [constructor |].
  destruct (existsb (eqb a) l) eqn:He; [assumption |].
  constructor; [| assumption].
  rewrite unique_In, <- existsb_eqb_In. congruence.
Qed.

Lemma groupby_keys (key : A -> K) (l : list A) :
  map fst (groupby eqb leb key l) = sort leb (unique eqb (map key l)).
Proof.
  unfold groupby. rewrite map_map. simpl. apply map_id.
Qed.

Lemma groupby_keys_NoDup (key : A -> K) (l : list A) :
  NoDup (map fst (groupby eqb leb key l)).
Proof.
  rewrite groupby_keys.
  eapply Permutation_NoDup;
    [apply Permutation_sym, sort_Permutation | apply unique_NoDup].
Qed.

Lemma groupby_keys_In (key : A -> K) (l : list A) (k : K) :
  In k (map fst (groupby eqb leb key l)) <-> In k (map key l).
Proof.
  rewrite groupby_keys, <- (unique_In k (map key l)). split; intros H.
  - eapply Permutation_in; [apply sort_Permutation | exact H].
  - eapply Permutation_in; [apply Permutation_sym, sort_Permutation | exact H].
Qed.

Lemma groupby_group (key : A -> K) (l : list A) (k : K) (g : list A) :
  In (k, g) (groupby eqb leb key l) ->
  g = filter (fun a => eqb (key a) k) l.
Proof.
  unfold groupby. rewrite in_map_iff. intros [k' [Heq _]].
  now inversion Heq.
Qed.

(** Exactly one of the distinct keys is the key of a given element. *)
Lemma count_key (k0 : K) (ks : list K) :
  NoDup ks -> In k0 ks ->
  sum (map (fun k => if eqb k0 k then 1 else 0) ks) = 1.
Proof.
  induction ks as [| k ks IH]; simpl; intros Hnd Hin; [contradiction |].
  inversion Hnd as [| ? ? Hnotin Hnd']; subst.
  assert (Hzero : forall ks', ~ In k0 ks' ->
            sum (map (fun k => if eqb k0 k then 1 else 0) ks') = 0).
  { induction ks' as [| k' ks' IH']; simpl; intros Hn; [reflexivity |].
    destruct (eqb k0 k') eqn:He.
    - apply eqb_spec in He. subst. exfalso. apply Hn. now left.
    - rewrite IH'; [reflexivity | intros H; apply Hn; now right]. }
  destruct Hin as [-> | Hin].
  - replace (eqb k0 k0) with true by (symmetry; now apply eqb_spec).
    rewrite Hzero by assumption. reflexivity.
  - destruct (eqb k0 k) eqn:He.
    + apply eqb_spec in He. subst. contradiction.
    + rewrite IH by assumption. reflexivity.
Qed.

(** The groups partition the elements: their sizes add up to the number of
    elements. *)
Lemma group_sizes (key : A -> K) (l : list A) (ks : list K) :
  NoDup ks -> (forall a, In a l -> In (key a) ks) ->
  sum (map (fun k => len (filter (fun a => eqb (key a) k) l)) ks) = len l.
Proof.
  intros Hnd. induction l as [| a l IH]; intros Hin.
  - clear Hnd Hin. induction ks as [| k ks IHk]; simpl in *; [reflexivity |].
    rewrite IHk. reflexivity.
  - assert (Hsplit : forall ks',
      sum (map (fun k => len (filter (fun a => eqb (key a) k) (a :: l))) ks') =
      sum (map (fun k => if eqb (key a) k then 1 else 0) ks') +
      sum (map (fun k => len (filter (fun a => eqb (key a) k) l)) ks')).
    { induction ks' as [| k ks' IHk]; simpl; [reflexivity |].
      simpl in IHk. rewrite IHk. unfold len.
      destruct (eqb (key a) k); simpl List.length; lia. }
    rewrite Hsplit, count_key, IH.
    + unfold len. simpl List.length. lia.
    + intros a' Ha'. apply Hin. now right.
    + assumption.
    + apply Hin. now left.
Qed.

Lemma groupby_sizes (key : A -> K) (l : list A) :
  sum (map (fun kg => len (snd kg)) (groupby eqb leb key l)) = len l.
Proof.
  unfold groupby. rewrite map_map. simpl.
  apply group_sizes.
  - rewrite <- groupby_keys. apply groupby_keys_NoDup.
  - intros a Ha. rewrite <- groupby_keys, groupby_keys_In.
    now apply in_map.
Qed.
End GroupingFacts.

(** ** Dictionaries *)

Lemma dict_set_fresh {B} (k : string) (v : B) (d : list (string * B)) :
  ~ In k (map fst d) -> dict_set k v d = (d ++ [(k, v)])%list.
Proof.
  induction d as [| [k' v'] d IH]; simpl; intros Hn; [reflexivity |].
  destruct (String.eqb_spec k k') as [-> | Hne].
  - exfalso. apply Hn. now left.
  - rewrite IH; [reflexivity | intros H; apply Hn; now right].
Qed.

Lemma fold_dict_set_NoDup {B} (items d : list (string * B)) :
  NoDup (map fst (d ++ items)) ->
  fold_left (fun d kv => dict_set (fst kv) (snd kv) d) items d = (d ++ items)%list.
Proof.
  revert d. induction items as [| [k v] items IH]; intros d Hnd; simpl.
  - now rewrite app_nil_r.
  - rewrite dict_set_fresh.
    + rewrite IH; rewrite <- app_assoc; [reflexivity | exact Hnd].
    + rewrite map_app in Hnd. apply NoDup_remove_2 in Hnd.
      intros H. apply Hnd. apply in_or_app. now left.
Qed.

(** A dict filled from pairs with distinct keys holds exactly these pairs,
    in their order. *)
Lemma dict_of_NoDup {B} (items : list (string * B)) :
  NoDup (map fst items) -> dict_of items = items.
Proof.
  intros Hnd. unfold dict_of. now rewrite fold_dict_set_NoDup.
Qed.

Lemma dict_set_length {B} (k : string) (v : B) (d : list (string * B)) :
  (List.length (dict_set k v d) <= S (List.length d))%nat.
Proof.
  induction d as [| [k' v'] d IH]; simpl; [lia |].
  destruct (String.eqb k k'); simpl; lia.
Qed.

Lemma dict_of_length {B} (items : list (string * B)) :
  (List.length (dict_of items) <= List.length items)%nat.
Proof.
  unfold dict_of.
  enough (H : forall d,
    (List.length (fold_left (fun d kv => dict_set (fst kv) (snd kv) d) items d)
     <= List.length d + List.length items)%nat) by apply (H []).
  induction items as [| kv items IH]; intros d; simpl; [lia |].
  specialize (IH (dict_set (fst kv) (snd kv) d)).
  pose proof (dict_set_length (fst kv) (snd kv) d). lia.
Qed.

(** ** Dates *)

Ltac to_prop :=
  repeat match goal with
  | H : (_ && _) = true |- _ => apply andb_true_iff in H; destruct H
  | H : (_ <=? _) = true |- _ => apply Z.leb_le in H
  | H : (_ <? _) = true |- _ => apply Z.ltb_lt in H
  | H : (_ =? _) = true |- _ => apply Z.eqb_eq in H
  end.

Lemma in_bounds_year_month (t : Timestamp) :
  in_bounds t = true ->
  1677 <= year t <= 2262 /\ 1 <= month t <= 12.
Proof.
  unfold in_bounds, valid_date, Timestamp_leb, Timestamp_min, Timestamp_max.
  cbn [year month day]. intros H. to_prop.
  repeat match goal with
  | H : (_ || _) = true |- _ => apply orb_true_iff in H; destruct H; to_prop
  end; lia.
Qed.

Lemma coerce_in_bounds (r : option Timestamp) (t : Timestamp) :
  coerce r = Some t -> in_bounds t = true.
Proof.
  destruct r as [t' |]; simpl; [| discriminate].
  destruct (in_bounds t') eqn:Hb; [| discriminate].
  intros H. now inversion H; subst.
Qed.

Lemma digit_char_inj (a b : Z) :
  0 <= a < 10 -> 0 <= b < 10 -> digit_char a = digit_char b -> a = b.
Proof.
  intros Ha Hb H. unfold digit_char in H.
  apply (f_equal N_of_ascii) in H.
  rewrite !N_ascii_embedding in H by lia. lia.
Qed.

Lemma four_digits_value (y : Z) :
  0 <= y < 10000 ->
  y = 1000 * (y / 1000 mod 10) + 100 * (y / 100 mod 10) +
      10 * (y / 10 mod 10) + y mod 10.
Proof.
  intros Hy. Z.to_euclidean_division_equations. lia.
Qed.

Lemma two_digits_value (m : Z) :
  0 <= m < 100 -> m = 10 * (m / 10 mod 10) + m mod 10.
Proof.
  intros Hm. Z.to_euclidean_division_equations. lia.
Qed.

Lemma Period_str_inj (p q : Period) :
  0 <= fst p < 10000 -> 0 <= snd p < 100 ->
  0 <= fst q < 10000 -> 0 <= snd q < 100 ->
  Period_str p = Period_str q -> p = q.
Proof.
  destruct p as [y m], q as [y' m']. simpl. intros Hy Hm Hy' Hm' H.
  unfold Period_str, four_digits, two_digits in H. simpl in H.
  injection H as H3 H2 H1 H0 M1 M0.
  apply digit_char_inj in H3, H2, H1, H0, M1, M0;
    try (apply Z.mod_pos_bound; lia).
  f_equal.
  - pose proof (four_digits_value y Hy). pose proof (four_digits_value y' Hy').
    lia.
  - pose proof (two_digits_value m Hm). pose proof (two_digits_value m' Hm').
    lia.
Qed.

Lemma Timestamp_eqb_eq (a b : Timestamp) : Timestamp_eqb a b = true -> a = b.
Proof.
  destruct a, b. unfold Timestamp_eqb. cbn [year month day].
  intros H. to_prop. now subst.
Qed.

Lemma range_In (lo : Z) (n : nat) (x : Z) :
  lo <= x < lo + Z.of_nat n -> In x (range lo n).
Proof.
  intros Hx. unfold range. apply in_map_iff.
  exists (Z.to_nat (x - lo)). split; [lia | apply in_seq; lia].
Qed.

Lemma days_in_month_le (y m : Z) : days_in_month y m <= 31.
Proof.
  unfold days_in_month.
  destruct (m =? 2); [destruct (is_leap y); lia |].
  destruct ((m =? 4) || (m =? 6) || (m =? 9) || (m =? 11)); lia.
Qed.

Lemma roundtrip_table_true :
  forallb (fun y =>
    forallb (fun m =>
      forallb (fun d =>
        negb (valid_date (mkTimestamp y m d)) ||
        roundtrip_ok (mkTimestamp y m d))
        (range 1 31))
      (range 1 12))
    (range 1969 100) = true.
Proof. vm_compute. reflexivity. Qed.

Lemma forallb_In {A} (f : A -> bool) (l : list A) (x : A) :
  forallb f l = true -> In x l -> f x = true.
Proof.
  intros H Hx. rewrite forallb_forall in H. now apply H.
Qed.

Lemma roundtrip_valid (t : Timestamp) :
  valid_date t = true -> 1969 <= year t <= 2068 -> roundtrip_ok t = true.
Proof.
  destruct t as [y m d]. cbn [year]. intros Hv Hy.
  assert (Hmd : 1 <= m <= 12 /\ 1 <= d <= 31).
  { pose proof (days_in_month_le y m).
    unfold valid_date in Hv. cbn [year month day] in Hv. to_prop. lia. }
  pose proof (forallb_In _ _ y roundtrip_table_true
                (range_In 1969 100 y ltac:(lia))) as Ty.
  pose proof (forallb_In _ _ m Ty (range_In 1 12 m ltac:(lia))) as Tm.
  pose proof (forallb_In _ _ d Tm (range_In 1 31 d ltac:(lia))) as Td.
  cbv beta in Td. rewrite Hv in Td. exact Td.
Qed.

Lemma has_hyphen_nonempty (s : string) :
  has_hyphen s = true -> String.eqb s EmptyString = false.
Proof. destruct s; [discriminate | reflexivity]. Qed.

(** What the strict format accepts ends in two digits, read with the
    century rule. *)

Lemma match_after_day_year (d : Z) (s : string) (t : Timestamp) :
  match_after_day d s = Some t ->
  exists mid y1 y0,
    s = mid ++ String y1 (String y0 EmptyString) /\
    is_digit y1 = true /\ is_digit y0 = true /\
    year t = pivot_year (10 * digit_value y1 + digit_value y0).
Proof.
  unfold match_after_day, expect_hyphen.
  destruct s as [| h s]; [discriminate |].
  destruct (code h =? 45); [| discriminate].
  unfold match_month.
  destruct s as [| a [| b [| c s]]]; try discriminate.
  destruct (assoc _ month_map) as [m |]; [| discriminate].
  destruct s as [| h' s]; [discriminate |].
  destruct (code h' =? 45); [| discriminate].
  unfold match_year_end.
  destruct s as [| y1 [| y0 [| ? ?]]]; try discriminate.
  destruct (is_digit y1) eqn:H1; [| discriminate].
  destruct (is_digit y0) eqn:H0; [| discriminate].
  cbn [andb]. intros H. injection H as Ht. subst t. cbn [year].
  exists (String h (String a (String b (String c (String h' EmptyString))))), y1, y0.
  repeat split; try assumption; reflexivity.
Qed.

Lemma day_alternatives_suffix (s rest : string) (d : Z) :
  In (d, rest) (day_alternatives s) -> exists pre, s = pre ++ rest.
Proof.
  unfold day_alternatives.
  destruct s as [| a [| b s]]; [contradiction | |].
  - destruct (is_digit a && negb (code a =? 48)); [| contradiction].
    intros [H | []]. inversion H; subst. now exists (String a EmptyString).
  - intros H. repeat (apply in_app_or in H; destruct H as [H | H]);
      match type of H with
      | In _ (if ?c then _ else _) => destruct c; [| contradiction]
      end;
      destruct H as [H | []]; inversion H; subst;
      solve [ now exists (String a (String b EmptyString)) | now exists (String a EmptyString) ].
Qed.

Lemma first_match_In (alts : list (Z * string)) (t : Timestamp) :
  first_match alts = Some t ->
  exists d rest, In (d, rest) alts /\ match_after_day d rest = Some t.
Proof.
  induction alts as [| [d rest] alts IH]; simpl; [discriminate |].
  destruct (match_after_day d rest) as [t' |] eqn:Hm.
  - intros H. inversion H; subst. exists d, rest. split; [now left | assumption].
  - intros H. destruct (IH H) as [d' [rest' [Hin Hm']]].
    exists d', rest'. split; [now right | assumption].
Qed.

Lemma append_assoc (a b c : string) : (a ++ b) ++ c = a ++ (b ++ c).
Proof.
  induction a as [| x a IH]; simpl; [reflexivity | now rewrite IH].
Qed.

Lemma strptime_dmy_year (s : string) (t : Timestamp) :
  strptime_dmy s = Some t ->
  exists pre y1 y0,
    s = pre ++ String y1 (String y0 EmptyString) /\
    is_digit y1 = true /\ is_digit y0 = true /\
    year t = pivot_year (10 * digit_value y1 + digit_value y0).
Proof.
  unfold strptime_dmy.
  destruct (first_match (day_alternatives s)) as [t' |] eqn:Hf; [| discriminate].
  destruct (valid_date t'); [| discriminate].
  intros H. inversion H; subst.
  apply first_match_In in Hf. destruct Hf as [d [rest [Hin Hm]]].
  apply day_alternatives_suffix in Hin. destruct Hin as [pre ->].
  apply match_after_day_year in Hm.
  destruct Hm as [mid [y1 [y0 [-> [H1 [H0 Hy]]]]]].
  exists (pre ++ mid), y1, y0. rewrite append_assoc. repeat split; assumption.
Qed.

(** ** Monthly breakdowns *)

Lemma Period_eqb_eq (p q : Period) : Period_eqb p q = true <-> p = q.
Proof.
  destruct p as [y m], q as [y' m']. unfold Period_eqb. cbn [fst snd].
  rewrite andb_true_iff, !Z.eqb_eq. split.
  - intros [-> ->]. reflexivity.
  - intros H. now inversion H.
Qed.

(** Distinct periods of dates a [Timestamp] can hold are rendered
    differently, so no entry of a monthly breakdown overwrites another. *)
Lemma month_keys_NoDup {A} (l : list (Timestamp * A)) :
  (forall ta, In ta l -> in_bounds (fst ta) = true) ->
  NoDup (map Period_str
           (map fst (groupby Period_eqb Period_leb
                             (fun ta : Timestamp * A => to_period (fst ta)) l))).
Proof.
  intros Hb. apply NoDup_map_NoDup_ForallPairs.
  - assert (Hkey : forall p,
      In p (map fst (groupby Period_eqb Period_leb
                             (fun ta : Timestamp * A => to_period (fst ta)) l)) ->
      0 <= fst p < 10000 /\ 0 <= snd p < 100).
    { intros p Hp.
      apply (proj1 (groupby_keys_In Period_eqb Period_leb Period_eqb_eq
                      (fun ta : Timestamp * A => to_period (fst ta)) l p)) in Hp.
      apply in_map_iff in Hp. destruct Hp as [ta [<- Hta]].
      apply Hb, in_bounds_year_month in Hta. unfold to_period. cbn [fst snd]. lia. }
    intros p q Hp Hq. apply Hkey in Hp, Hq. apply Period_str_inj; tauto.
  - apply groupby_keys_NoDup. exact Period_eqb_eq.
Qed.

Lemma sales_by_month_items (l : list (Timestamp * row)) :
  (forall ta, In ta l -> in_bounds (fst ta) = true) ->
  sales_by_month l =
  map (fun pg : Period * list (Timestamp * row) =>
         (Period_str (fst pg),
          {| entry_amount := sum (map (fun tr => row_amount (snd tr)) (snd pg));
             entry_count := len (snd pg) |}))
      (groupby Period_eqb Period_leb
               (fun tr : Timestamp * row => to_period (fst tr)) l).
Proof.
  intros Hb. unfold sales_by_month. apply dict_of_NoDup.
  rewrite map_map. cbn [fst].
  rewrite <- (map_map fst Period_str). now apply month_keys_NoDup.
Qed.

Lemma sales_by_month_count (l : list (Timestamp * row)) :
  (forall ta, In ta l -> in_bounds (fst ta) = true) ->
  total_count (sales_by_month l) = len l.
Proof.
  intros Hb. rewrite sales_by_month_items by assumption.
  unfold total_count. rewrite map_map. cbn [snd entry_count].
  apply groupby_sizes. exact Period_eqb_eq.
Qed.

(** ** The service *)

Section ServiceFacts.
Variable gen : value -> option Timestamp.

Lemma parse_date_hyphen (s : string) :
  has_hyphen s = true -> parse_date gen (VStr s) = coerce (strptime_dmy s).
Proof.
  intros Hh. unfold parse_date.
  now rewrite (has_hyphen_nonempty s Hh), Hh.
Qed.

Lemma parse_date_in_bounds (v : value) (t : Timestamp) :
  parse_date gen v = Some t -> in_bounds t = true.
Proof.
  unfold parse_date. destruct v as [| s | n]; [discriminate | |].
  - destruct (String.eqb s EmptyString); [discriminate |].
    destruct (has_hyphen s); apply coerce_in_bounds.
  - destruct (n =? 0); [discriminate | apply coerce_in_bounds].
Qed.

Lemma with_dates_in_bounds {A} (get_date : A -> value) (l : list A)
    (ta : Timestamp * A) :
  In ta (with_dates gen get_date l) -> in_bounds (fst ta) = true.
Proof.
  unfold with_dates. rewrite in_flat_map. intros [a [_ Hin]].
  destruct (parse_date gen (get_date a)) as [t |] eqn:Hp; [| contradiction].
  destruct Hin as [<- | []]. now apply parse_date_in_bounds in Hp.
Qed.

Lemma with_dates_length {A} (get_date : A -> value) (l : list A) :
  len (with_dates gen get_date l) <= len l.
Proof.
  unfold len. induction l as [| a l IH]; simpl; [lia |].
  destruct (parse_date gen (get_date a)); simpl List.length; lia.
Qed.

Lemma with_dates_all {A} (get_date : A -> value) (l : list A) :
  Forall (fun a => is_some (parse_date gen (get_date a)) = true) l ->
  len (with_dates gen get_date l) = len l.
Proof.
  unfold len. induction 1 as [| a l Ha _ IH]; simpl; [reflexivity |].
  destruct (parse_date gen (get_date a)); [| discriminate].
  simpl List.length. lia.
Qed.

Lemma dropna_dated (l : list row) :
  Forall (fun r => is_some (parse_date gen (row_date r)) = true) (dropna gen l).
Proof.
  apply Forall_forall. intros r Hr. unfold dropna in Hr.
  now apply filter_In in Hr.
Qed.

Lemma select_dated (p : Timestamp -> bool) (l : list row) :
  Forall (fun r => is_some (parse_date gen (row_date r)) = true) l ->
  Forall (fun r => is_some (parse_date gen (row_date r)) = true) (select gen p l).
Proof.
  rewrite !Forall_forall. intros H r Hr. apply H.
  unfold select in Hr. now apply filter_In in Hr.
Qed.

Lemma filter_inactive (df : DataFrame) (date_context : option DateContext) :
  inactive date_context -> filter_by_date_context gen df date_context = Ok df.
Proof.
  destruct date_context as [ctx |]; simpl; [| reflexivity].
  intros ->. reflexivity.
Qed.

(** An active filter returns rows whose dates all parse, and leaves the
    columns as they are. *)
Lemma filter_active (df df' : DataFrame) (date_context : option DateContext) :
  active date_context ->
  filter_by_date_context gen df date_context = Ok df' ->
  Forall (fun r => is_some (parse_date gen (row_date r)) = true) (rows df') /\
  has_date df' = has_date df /\ has_account df' = has_account df.
Proof.
  intros [ctx [-> Hact]]. unfold filter_by_date_context. rewrite Hact. cbn [negb].
  destruct (has_date df) eqn:Hd; cbn [negb]; [| discriminate].
  set (df2 := match months ctx with
              | [] => dropna gen (rows df)
              | _ :: _ =>
                  match month_numbers (months ctx) with
                  | [] => dropna gen (rows df)
                  | _ :: _ => _
                  end
              end).
  assert (H2 : Forall (fun r => is_some (parse_date gen (row_date r)) = true) df2).
  { subst df2. destruct (months ctx); [apply dropna_dated |].
    destruct (month_numbers _); [apply dropna_dated |].
    apply select_dated, dropna_dated. }
  clearbody df2.
  destruct (years ctx).
  - intros H. inversion H; subst. cbn. auto.
  - destruct (year_numbers _) as [ys | e]; cbn [bind]; [| discriminate].
    destruct ys; intros H; inversion H; subst; cbn; auto using select_dated.
Qed.

Lemma numeric_frame_rows (data : list record) (df : DataFrame) :
  numeric_frame data = Ok df ->
  rows df = map to_row data /\ has_date df = has_key date data /\
  has_account df = has_key account data.
Proof.
  unfold numeric_frame. destruct (has_key amount data); [| discriminate].
  intros H. inversion H; subst. cbn. auto.
Qed.

(** What [calculate_sales] returns on a request with records. *)
Lemma calculate_sales_Ok (sales_data : list record)
    (date_context : option DateContext) (s : SalesSummary) :
  sales_data <> [] ->
  calculate_sales gen sales_data date_context = Ok s ->
  exists df0 df,
    numeric_frame sales_data = Ok df0 /\
    filter_by_date_context gen df0 date_context = Ok df /\
    has_date df = true /\
    s = {| total_amount := sum_amount (rows df);
           voucher_count := len (rows df);
           monthly_breakdown := sales_by_month (with_dates gen row_date (rows df));
           customer_breakdown :=
             if has_account df then top_customers (rows df) else [];
           date_range := format_range (with_dates gen row_date (rows df)) |}.
Proof.
  intros Hne. unfold calculate_sales.
  destruct sales_data as [| r data]; [contradiction |].
  destruct (numeric_frame (r :: data)) as [df0 | e] eqn:H0;
    cbn [bind]; [| discriminate].
  destruct (filter_by_date_context gen df0 date_context) as [df | e] eqn:H1;
    cbn [bind]; [| discriminate].
  destruct (has_date df) eqn:Hd; cbn [negb]; [| discriminate].
  intros H. injection H as <-. exists df0, df. rewrite Hd. auto.
Qed.
End ServiceFacts.

(** ** Customer breakdowns *)

Lemma StronglySorted_impl {A} (R S : A -> A -> Prop) (l : list A) :
  (forall a b, R a b -> S a b) -> StronglySorted R l -> StronglySorted S l.
Proof.
  intros HRS. induction 1 as [| a l _ IH Hall]; constructor; [assumption |].
  eapply Forall_impl; [| exact Hall]. intros b. apply HRS.
Qed.

Lemma sort_values_desc_descending (l : list (string * Z)) :
  descending (sort_values_desc l).
Proof.
  unfold descending, sort_values_desc.
  apply (StronglySorted_impl (fun a b => (snd b <=? snd a) = true)).
  - intros a b H. apply Z.leb_le in H. lia.
  - apply Sorted_StronglySorted.
    + intros a b c Hab Hbc. apply Z.leb_le in Hab, Hbc. apply Z.leb_le. lia.
    + apply sort_Sorted. intros a b.
      destruct (Z.leb_spec (snd b) (snd a)); [now left | right].
      apply Z.leb_le. lia.
Qed.

Lemma account_sums_keys_NoDup (l : list row) :
  NoDup (map fst (account_sums l)).
Proof.
  unfold account_sums. rewrite map_map. cbn [fst].
  apply (groupby_keys_NoDup String.eqb String.leb String.eqb_eq).
Qed.

Lemma top_customers_items (l : list row) :
  top_customers l = firstn 10 (sort_values_desc (account_sums l)).
Proof.
  unfold top_customers. apply dict_of_NoDup, NoDup_map_firstn.
  eapply Permutation_NoDup; [| apply account_sums_keys_NoDup].
  apply Permutation_map, Permutation_sym, sort_Permutation.
Qed.

Lemma by_account_total (k : string) (l : list row) :
  sum (map (fun kr : string * row => row_amount (snd kr))
           (filter (fun kr => String.eqb (fst kr) k) (by_account l))) =
  account_total k l.
Proof.
  unfold account_total, sum_amount, sum, by_account.
  induction l as [| r l IH]; [reflexivity |].
  simpl. destruct (row_account r) as [k' |]; simpl; [| exact IH].
  destruct (String.eqb k' k); simpl; now rewrite IH.
Qed.

Lemma account_sums_total (l : list row) (k : string) (v : Z) :
  In (k, v) (account_sums l) -> v = account_total k l.
Proof.
  unfold account_sums. rewrite in_map_iff. intros [[k' g] [Heq Hin]].
  cbn [fst snd] in Heq. injection Heq as -> <-.
  apply groupby_group in Hin. subst g. apply by_account_total.
Qed.

Lemma top_customers_facts (l : list row) :
  (List.length (top_customers l) <= 10)%nat /\
  descending (top_customers l) /\
  forall k v, In (k, v) (top_customers l) -> v = account_total k l.
Proof.
  rewrite top_customers_items. repeat split.
  - apply firstn_le_length.
  - apply StronglySorted_firstn, sort_values_desc_descending.
  - intros k v Hin. apply In_firstn in Hin.
    apply account_sums_total.
    eapply Permutation_in; [apply sort_Permutation | exact Hin].
Qed.

(** ** The scenarios *)

Lemma scenario_sales_result (gen : value -> option Timestamp) :
  calculate_sales gen scenario_sales None = Ok scenario_summary.
Proof. vm_compute. reflexivity. Qed.

Lemma scenario_jan_result (gen : value -> option Timestamp) :
  calculate_sales gen scenario_sales scenario_jan = Ok jan_summary.
Proof. vm_compute. reflexivity. Qed.

Lemma scenario_profit_result (gen : value -> option Timestamp) :
  calculate_profit gen scenario_revenue scenario_expense None =
    Ok scenario_profit.
Proof. vm_compute. reflexivity. Qed.

Lemma scenario_frame_numeric : numeric_frame scenario_sales = Ok scenario_frame.
Proof. reflexivity. Qed.

Lemma jan_frame_filtered (gen : value -> option Timestamp) :
  filter_by_date_context gen scenario_frame scenario_jan = Ok jan_frame.
Proof. vm_compute. reflexivity. Qed.

(** ** Exact amounts *)

Lemma letter_plain (c : ascii) :
  is_letter c = true ->
  is_space c = false /\ is_digit c = false /\
  (code c =? 45) = false /\ (code c =? 43) = false.
Proof.
  unfold is_letter, is_space, is_digit. intros H.
  assert (Hc : 65 <= code c <= 122).
  { apply orb_true_iff in H. destruct H as [H | H]; to_prop; lia. }
  repeat split.
  - apply orb_false_iff. split; [apply Z.eqb_neq; lia |].
    apply andb_false_iff. right. apply Z.leb_gt. lia.
  - apply andb_false_iff. right. apply Z.leb_gt. lia.
  - apply Z.eqb_neq. lia.
  - apply Z.eqb_neq. lia.
Qed.

Lemma digit_plain (c : ascii) :
  (48 <=? code c) && (code c <=? 57) = true ->
  is_space c = false /\ (code c =? 45) = false /\ (code c =? 43) = false.
Proof.
  unfold is_space. intros H. to_prop. repeat split.
  - apply orb_false_iff. split; [apply Z.eqb_neq; lia |].
    apply andb_false_iff. right. apply Z.leb_gt. lia.
  - apply Z.eqb_neq. lia.
  - apply Z.eqb_neq. lia.
Qed.

Lemma signed_literal_letters (underscores : bool) (s : string) :
  all_letters s = true -> signed_literal underscores s = None.
Proof.
  destruct s as [| c t]; [reflexivity |]. cbn [all_letters]. intros H.
  apply andb_true_iff in H. destruct H as [Hc _].
  destruct (letter_plain c Hc) as (Hs & Hd & H45 & H43).
  unfold signed_literal. cbn [lstrip]. rewrite Hs, H45, H43, Hd. reflexivity.
Qed.

Lemma scan_digits_decimal (underscores : bool) (s : string) (acc : Z) :
  all_digits s = true -> scan_digits underscores acc s = Some (decimal acc s).
Proof.
  revert acc. induction s as [| c t IH]; intros acc H; [reflexivity |].
  cbn [all_digits] in H. apply andb_true_iff in H. destruct H as [Hc Ht].
  cbn [scan_digits decimal]. unfold is_digit. rewrite Hc.
  unfold digit_value. now apply IH.
Qed.

Lemma signed_literal_digits (underscores : bool) (c : ascii) (t : string) :
  all_digits (String c t) = true ->
  signed_literal underscores (String c t) = Some (decimal 0 (String c t)).
Proof.
  intros H. pose proof H as H'. cbn [all_digits] in H'.
  apply andb_true_iff in H'. destruct H' as [Hc _].
  destruct (digit_plain c Hc) as (Hs & H45 & H43).
  unfold signed_literal. cbn [lstrip]. rewrite Hs, H45, H43.
  unfold is_digit. rewrite Hc. rewrite scan_digits_decimal by exact H.
  cbn [option_map]. now rewrite Z.mul_1_l.
Qed.

(** On the amounts the integers represent, the coercion of the frame reads
    what the records say. *)
Lemma coerced_numeric (r : record) (n : Z) :
  coerced r = Some n -> numeric_amount r = n.
Proof.
  unfold coerced, numeric_amount.
  destruct (amount r) as [[| s | m] |]; cbn [to_numeric fillna].
  - intros H. now injection H as <-.
  - destruct (is_word s) eqn:Hw.
    + intros H. injection H as <-. unfold is_word in Hw.
      apply andb_true_iff in Hw. destruct Hw as [Hw _].
      apply andb_true_iff in Hw. destruct Hw as [Hw _].
      now rewrite signed_literal_letters.
    + destruct (all_digits s) eqn:Hd; [| discriminate].
      destruct s as [| c t]; [discriminate |].
      intros H. injection H as <-. now rewrite signed_literal_digits.
  - intros H. now injection H as <-.
  - intros H. now injection H as <-.
Qed.


Lemma dated_numeric (gen : value -> option Timestamp) (data : list record)
    (amounts : list Z) :
  map coerced data = map Some amounts ->
  map numeric_amount
      (filter (fun r => is_some (parse_date gen (record_date r))) data) =
  dated_amounts gen data amounts.
Proof.
  unfold dated_amounts. revert amounts.
  induction data as [| r data IH]; intros [| a amounts] H;
    try discriminate; [reflexivity |].
  cbn [map] in H. injection H as Hr Hd.
  cbn [combine filter fst].
  destruct (is_some (parse_date gen (record_date r))); cbn [map snd].
  - now rewrite (coerced_numeric r a Hr), (IH amounts Hd).
  - exact (IH amounts Hd).
Qed.

(** * The claims *)

Section Claims.
Variable gen : value -> option Timestamp.

(** C1: on the three-record scenario without a date context,
    [calculate_sales] returns total 350, count 3, the two monthly entries
    2023-01 (300, 2) and 2023-02 (50, 1), the customers A: 150 and B: 200
    (stored in descending order of amount) and the range
    "01-Jan-23 to 01-Feb-23". *)
Theorem C1_sales_scenario :
  calculate_sales gen scenario_sales None =
    Ok {| total_amount := 350;
          voucher_count := 3;
          monthly_breakdown :=
            [("2023-01", {| entry_amount := 300; entry_count := 2 |});
             ("2023-02", {| entry_amount := 50; entry_count := 1 |})];
          customer_breakdown := [("B", 200); ("A", 150)];
          date_range := "01-Jan-23 to 01-Feb-23" |} /\
  Permutation [("B", 200); ("A", 150)] [("A", 150); ("B", 200)].
Proof.
  split; [apply scenario_sales_result | apply perm_swap].
Qed.


(** C3: an active filter is applied before the totals are taken: the total
    and the count are those of the filtered frame, and the scenario
    restricted to January gives total 300 and count 2. *)
Theorem C3_filter_before_totals :
  (exists s, calculate_sales gen scenario_sales scenario_jan = Ok s /\
             total_amount s = 300 /\ voucher_count s = 2) /\
  (forall sales_data date_context df0 df s,
     numeric_frame sales_data = Ok df0 ->
     filter_by_date_context gen df0 date_context = Ok df ->
     calculate_sales gen sales_data date_context = Ok s ->
     total_amount s = sum_amount (rows df) /\ voucher_count s = len (rows df)).
Proof.
  split.
  - exists jan_summary. split; [apply scenario_jan_result | split; reflexivity].
  - intros data ctx df0 df s H0 H1 Hs.
    assert (Hne : data <> []) by (intros ->; discriminate).
    destruct (calculate_sales_Ok gen _ _ _ Hne Hs) as [df0' [df' [H0' [H1' [_ ->]]]]].
    rewrite H0 in H0'. injection H0' as <-.
    rewrite H1 in H1'. injection H1' as <-.
    split; reflexivity.
Qed.

(** C4: an empty sales list gives the zero summary with range "No data",
    whatever the date context. *)
Theorem C4_empty_sales (date_context : option DateContext) :
  calculate_sales gen [] date_context =
    Ok {| total_amount := 0;
          voucher_count := 0;
          monthly_breakdown := [];
          customer_breakdown := [];
          date_range := "No data" |}.
Proof. reflexivity. Qed.

(** C5, as amended: a date of the years 1969 to 2068 formatted as
    DD-Mon-YY parses back to itself; whatever the strict format accepts ends
    in two digits YY, read as 2000+YY up to 68 and as 1900+YY from 69 on. *)
Theorem C5_roundtrip_1969_2068 :
  (forall t, valid_date t = true -> 1969 <= year t <= 2068 ->
     parse_date gen (VStr (strftime_dmy t)) = Some t) /\
  (forall s t, has_hyphen s = true -> parse_date gen (VStr s) = Some t ->
     exists pre y1 y0,
       s = pre ++ String y1 (String y0 EmptyString) /\
       is_digit y1 = true /\ is_digit y0 = true /\
       year t = pivot_year (10 * digit_value y1 + digit_value y0)).
Proof.
  split.
  - intros t Hv Hy. pose proof (roundtrip_valid t Hv Hy) as Hr.
    unfold roundtrip_ok in Hr. apply andb_true_iff in Hr. destruct Hr as [Hh Hr].
    rewrite parse_date_hyphen by assumption.
    destruct (coerce (strptime_dmy (strftime_dmy t))) as [t' |]; [| discriminate].
    apply Timestamp_eqb_eq in Hr. now subst.
  - intros s t Hh Hp. rewrite parse_date_hyphen in Hp by assumption.
    destruct (strptime_dmy s) as [t' |] eqn:Hs; [| discriminate].
    cbn [coerce] in Hp. destruct (in_bounds t'); [| discriminate].
    injection Hp as <-. now apply strptime_dmy_year.
Qed.

(** C6: a string with a hyphen that the strict format does not match is
    unparseable: the lenient parser is not consulted. *)
Theorem C6_no_fallback (s : string) :
  has_hyphen s = true -> strptime_dmy s = None ->
  parse_date gen (VStr s) = None.
Proof.
  intros Hh Hs. rewrite parse_date_hyphen by assumption. now rewrite Hs.
Qed.

(** C7: when the months of an active context normalise to nothing, the
    months play no part in the filter; with no years either, the result is
    exactly the rows whose date parses. *)
Theorem C7_empty_month_set (df : DataFrame) (ctx : DateContext) :
  isDateSpecific ctx = true -> month_numbers (months ctx) = [] ->
  filter_by_date_context gen df (Some ctx) =
    filter_by_date_context gen df
      (Some {| isDateSpecific := true; months := []; years := years ctx |}) /\
  (has_date df = true -> years ctx = [] ->
   filter_by_date_context gen df (Some ctx) =
     Ok (with_rows df (dropna gen (rows df))) /\
   forall r, In r (rows df) -> parse_date gen (row_date r) <> None ->
             In r (dropna gen (rows df))).
Proof.
  intros Hact Hm.
  assert (Heq : filter_by_date_context gen df (Some ctx) =
    filter_by_date_context gen df
      (Some {| isDateSpecific := true; months := []; years := years ctx |})).
  { unfold filter_by_date_context. cbn [isDateSpecific months years].
    rewrite Hact, Hm. destruct (months ctx); reflexivity. }
  split; [exact Heq |].
  intros Hd Hy. split.
  - rewrite Heq. unfold filter_by_date_context.
    cbn [isDateSpecific months years negb]. now rewrite Hd, Hy.
  - intros r Hr Hp. unfold dropna. apply filter_In. split; [assumption |].
    destruct (parse_date gen (row_date r)); [reflexivity | contradiction].
Qed.

(** C8: the profit scenario gives revenue 500, expenses 200, profit 300,
    the entry 2023-01 (500, 200, 300) and one entry on each side; in general
    the net profit is revenue minus expenses and the entry counts are the
    sizes of the frames that come out of the date filter. *)
Theorem C8_profit :
  calculate_profit gen scenario_revenue scenario_expense None =
    Ok {| total_revenue := 500;
          total_expenses := 200;
          net_profit := 300;
          profit_breakdown :=
            [("2023-01", {| entry_revenue := 500; entry_expense := 200;
                            entry_profit := 300 |})];
          revenue_entries := 1;
          expense_entries := 1 |} /\
  (forall revenue_data expense_data date_context p,
     calculate_profit gen revenue_data expense_data date_context = Ok p ->
     net_profit p = total_revenue p - total_expenses p /\
     exists revenue_df expense_df,
       prepare gen revenue_data date_context = Ok revenue_df /\
       prepare gen expense_data date_context = Ok expense_df /\
       revenue_entries p = len (rows revenue_df) /\
       expense_entries p = len (rows expense_df)) /\
  (forall data date_context df0,
     data <> [] -> numeric_frame data = Ok df0 ->
     prepare gen data date_context =
       filter_by_date_context gen df0 date_context).
Proof.
  split; [apply scenario_profit_result | split].
  - intros rev exp ctx p. unfold calculate_profit.
    destruct (prepare gen rev ctx) as [rdf | e]; cbn [bind]; [| discriminate].
    destruct (prepare gen exp ctx) as [edf | e]; cbn [bind]; [| discriminate].
    destruct (tag_rows Revenue rdf); cbn [bind]; [| discriminate].
    destruct (tag_rows Expense edf); cbn [bind]; [| discriminate].
    intros H. injection H as <-. cbn. split; [reflexivity |].
    exists rdf, edf. auto.
  - intros data ctx df0 Hne H0. unfold prepare, empty. cbn [rows has_amount].
    destruct data as [| r data]; [contradiction |]. cbn [map].
    unfold numeric_frame in H0.
    destruct (has_key amount (r :: data)) eqn:Ha; [| discriminate].
    rewrite orb_true_r. cbn [orb negb].
    unfold numeric_frame. rewrite Ha. injection H0 as <-. reflexivity.
Qed.

(** The dict of customers that is handed to [jsonify] has at most ten
    entries, in descending order of amount, and each amount is the sum over
    the account's rows of the filtered frame. *)
Lemma customer_dict_descending (sales_data : list record)
    (date_context : option DateContext) (s : SalesSummary) :
  calculate_sales gen sales_data date_context = Ok s ->
  (List.length (customer_breakdown s) <= 10)%nat /\
  descending (customer_breakdown s) /\
  (forall df0 df,
     numeric_frame sales_data = Ok df0 ->
     filter_by_date_context gen df0 date_context = Ok df ->
     forall k v, In (k, v) (customer_breakdown s) ->
                 v = account_total k (rows df)).
Proof.
  intros Hs. destruct sales_data as [| r data].
  - injection Hs as <-. cbn. repeat split; [lia | constructor | contradiction].
  - assert (Hne : r :: data <> []) by discriminate.
    destruct (calculate_sales_Ok gen _ _ _ Hne Hs) as [df0 [df [H0 [H1 [_ ->]]]]].
    cbn [customer_breakdown].
    destruct (top_customers_facts (rows df)) as [Hlen [Hdesc Htot]].
    destruct (has_account df).
    + repeat split; try assumption.
      intros df0' df' H0' H1'. rewrite H0 in H0'. injection H0' as <-.
      rewrite H1 in H1'. injection H1' as <-. exact Htot.
    + repeat split; [cbn; lia | constructor | contradiction].
Qed.

(** C9: on the three-record scenario the route returns the customers in the
    order of their keys, A: 150 before B: 200, because [jsonify] sorts the
    keys of the dict that [calculate_sales] had put in descending order of
    amount: the returned breakdown has at most ten entries and is not in
    descending order of amount. *)
Theorem C9_returned_order :
  calculate_sales_response gen scenario_sales None = Ok scenario_response /\
  customer_breakdown scenario_response = [("A", 150); ("B", 200)] /\
  (List.length (customer_breakdown scenario_response) <= 10)%nat /\
  ~ descending (customer_breakdown scenario_response).
Proof.
  split; [| split; [| split]].
  - unfold calculate_sales_response. rewrite scenario_sales_result.
    reflexivity.
  - reflexivity.
  - cbn. lia.
  - cbn [customer_breakdown scenario_response]. intros H.
    apply StronglySorted_inv in H. destruct H as [_ H].
    apply Forall_inv in H. cbn [snd] in H. lia.
Qed.

(** C10: the counts of the monthly breakdown add up to at most the voucher
    count, and to exactly the voucher count when the date filter is
    active. *)
Theorem C10_monthly_counts (sales_data : list record)
    (date_context : option DateContext) (s : SalesSummary) :
  calculate_sales gen sales_data date_context = Ok s ->
  total_count (monthly_breakdown s) <= voucher_count s /\
  (active date_context -> total_count (monthly_breakdown s) = voucher_count s).
Proof.
  intros Hs. destruct sales_data as [| r data].
  - injection Hs as <-. cbn. split; [lia | reflexivity].
  - assert (Hne : r :: data <> []) by discriminate.
    destruct (calculate_sales_Ok gen _ _ _ Hne Hs) as [df0 [df [H0 [H1 [_ ->]]]]].
    cbn [monthly_breakdown voucher_count].
    rewrite sales_by_month_count by apply with_dates_in_bounds.
    split; [apply with_dates_length |].
    intros Hact. apply with_dates_all.
    now destruct (filter_active gen _ _ _ Hact H1).
Qed.
End Claims.

(** * The claims at concrete requests *)


Lemma C3_witness :
  numeric_frame scenario_sales = Ok scenario_frame /\
  filter_by_date_context no_generic scenario_frame scenario_jan = Ok jan_frame /\
  calculate_sales no_generic scenario_sales scenario_jan = Ok jan_summary /\
  total_amount jan_summary = sum_amount (rows jan_frame) /\
  voucher_count jan_summary = len (rows jan_frame).
Proof.
  split; [reflexivity |]. split; [vm_compute; reflexivity |].
  split; [vm_compute; reflexivity |].
  apply (proj2 (C3_filter_before_totals no_generic)
               scenario_sales scenario_jan scenario_frame jan_frame jan_summary);
    vm_compute; reflexivity.
Defined.

Lemma C5_witness :
  valid_date (mkTimestamp 2023 10 15) = true /\
  1969 <= year (mkTimestamp 2023 10 15) <= 2068 /\
  parse_date no_generic (VStr (strftime_dmy (mkTimestamp 2023 10 15))) =
    Some (mkTimestamp 2023 10 15).
Proof.
  split; [reflexivity |].
  assert (Hy : 1969 <= year (mkTimestamp 2023 10 15) <= 2068) by (simpl; lia).
  split; [exact Hy |].
  exact (proj1 (C5_roundtrip_1969_2068 no_generic)
               (mkTimestamp 2023 10 15) eq_refl Hy).
Defined.

(** C5 as stated fails: 1 January 1950 is a date a [Timestamp] holds, it is
    formatted "01-Jan-50" and read back as 1 January 2050; and the year of
    "15-Oct-99" is read as 1999, not as 2099. *)
Lemma C5_counterexample :
  in_bounds (mkTimestamp 1950 1 1) = true /\
  parse_date no_generic (VStr (strftime_dmy (mkTimestamp 1950 1 1))) <>
    Some (mkTimestamp 1950 1 1) /\
  (exists t, parse_date no_generic (VStr "15-Oct-99") = Some t /\
             year t <> 2000 + 99).
Proof.
  split; [reflexivity |]. split.
  - vm_compute. discriminate.
  - exists (mkTimestamp 1999 10 15). split; [reflexivity |].
    simpl. discriminate.
Qed.

Lemma C6_witness :
  has_hyphen "2023-10-15" = true /\ strptime_dmy "2023-10-15" = None /\
  iso_generic (VStr "2023-10-15") = Some (mkTimestamp 2023 10 15) /\
  parse_date iso_generic (VStr "2023-10-15") = None.
Proof.
  split; [reflexivity |]. split; [reflexivity |]. split; [reflexivity |].
  exact (C6_no_fallback iso_generic "2023-10-15" eq_refl eq_refl).
Defined.

Lemma C7_witness :
  isDateSpecific unknown_months = true /\
  month_numbers (months unknown_months) = [] /\
  has_date scenario_frame = true /\ years unknown_months = [] /\
  filter_by_date_context no_generic scenario_frame (Some unknown_months) =
    Ok (with_rows scenario_frame (dropna no_generic (rows scenario_frame))) /\
  dropna no_generic (rows scenario_frame) = rows scenario_frame.
Proof.
  split; [reflexivity |]. split; [reflexivity |].
  split; [reflexivity |]. split; [reflexivity |].
  split; [| reflexivity].
  exact (proj1 (proj2 (C7_empty_month_set no_generic scenario_frame
                         unknown_months eq_refl eq_refl) eq_refl eq_refl)).
Defined.

Lemma C8_witness :
  calculate_profit no_generic scenario_revenue scenario_expense None =
    Ok scenario_profit /\
  net_profit scenario_profit =
    total_revenue scenario_profit - total_expenses scenario_profit /\
  exists revenue_df expense_df,
    prepare no_generic scenario_revenue None = Ok revenue_df /\
    prepare no_generic scenario_expense None = Ok expense_df /\
    revenue_entries scenario_profit = len (rows revenue_df) /\
    expense_entries scenario_profit = len (rows expense_df).
Proof.
  assert (H : calculate_profit no_generic scenario_revenue scenario_expense None
              = Ok scenario_profit) by (vm_compute; reflexivity).
  split; [exact H |].
  exact (proj1 (proj2 (C8_profit no_generic))
               scenario_revenue scenario_expense None scenario_profit H).
Defined.

Lemma C10_witness :
  calculate_sales no_generic scenario_sales scenario_jan = Ok jan_summary /\
  active scenario_jan /\
  total_count (monthly_breakdown jan_summary) <= voucher_count jan_summary /\
  total_count (monthly_breakdown jan_summary) = voucher_count jan_summary.
Proof.
  assert (H : calculate_sales no_generic scenario_sales scenario_jan
              = Ok jan_summary) by (vm_compute; reflexivity).
  assert (Hact : active scenario_jan).
  { eexists. split; reflexivity. }
  split; [exact H |]. split; [exact Hact |].
  pose proof (C10_monthly_counts no_generic scenario_sales scenario_jan
                                 jan_summary H) as [Hle Heq].
  split; [exact Hle | exact (Heq Hact)].
Defined.

(** * Further properties of the date parser *)

Lemma is_digit_value (c : ascii) :
  is_digit c = true -> 0 <= digit_value c <= 9.
Proof.
  unfold is_digit, digit_value. intros H. to_prop. lia.
Qed.

(** The strict format only yields valid dates of the years 1969 to 2068. *)
Lemma strptime_dmy_sound (s : string) (t : Timestamp) :
  strptime_dmy s = Some t ->
  valid_date t = true /\ 1969 <= year t <= 2068.
Proof.
  intros Hs. split.
  - unfold strptime_dmy in Hs.
    destruct (first_match (day_alternatives s)) as [t' |]; [| discriminate].
    destruct (valid_date t') eqn:Hv; [| discriminate].
    injection Hs as <-. exact Hv.
  - apply strptime_dmy_year in Hs.
    destruct Hs as [pre [y1 [y0 [_ [H1 [H0 ->]]]]]].
    apply is_digit_value in H1, H0. unfold pivot_year.
    destruct (Z.leb_spec (10 * digit_value y1 + digit_value y0) 68); lia.
Qed.

Lemma strptime_dmy_in_bounds (s : string) (t : Timestamp) :
  strptime_dmy s = Some t -> in_bounds t = true.
Proof.
  intros Hs. apply strptime_dmy_sound in Hs. destruct Hs as [Hv Hy].
  unfold in_bounds. rewrite Hv. cbn [andb].
  unfold Timestamp_leb, Timestamp_min, Timestamp_max. cbn [year month day].
  replace (1677 <? year t) with true by (symmetry; apply Z.ltb_lt; lia).
  replace (year t <? 2262) with true by (symmetry; apply Z.ltb_lt; lia).
  reflexivity.
Qed.

Lemma coerce_strptime_dmy (s : string) :
  coerce (strptime_dmy s) = strptime_dmy s.
Proof.
  destruct (strptime_dmy s) as [t |] eqn:Hs; [| reflexivity].
  cbn [coerce]. now rewrite (strptime_dmy_in_bounds s t Hs).
Qed.

Lemma valid_date_day_month (t : Timestamp) :
  valid_date t = true -> 1 <= month t <= 12 /\ 1 <= day t <= 31.
Proof.
  intros Hv. pose proof (days_in_month_le (year t) (month t)).
  unfold valid_date in Hv. to_prop. lia.
Qed.

(** ** Letter case *)

Lemma lower_char_other (c : ascii) :
  code c < 65 \/ 90 < code c -> lower_char c = c.
Proof.
  intros H. unfold lower_char.
  destruct (Z.leb_spec 65 (code c)); destruct (Z.leb_spec (code c) 90);
    cbn [andb]; try reflexivity; lia.
Qed.

Lemma code_bound (c : ascii) : 0 <= code c < 256.
Proof.
  unfold code. pose proof (N_ascii_bounded c). lia.
Qed.

Lemma lower_char_letter (c : ascii) :
  65 <= code c <= 90 -> code (lower_char c) = code c + 32.
Proof.
  intros H. unfold lower_char.
  replace (65 <=? code c) with true by (symmetry; apply Z.leb_le; lia).
  replace (code c <=? 90) with true by (symmetry; apply Z.leb_le; lia).
  cbn [andb]. unfold code in *. rewrite N_ascii_embedding; lia.
Qed.

Lemma lower_char_idem (c : ascii) : lower_char (lower_char c) = lower_char c.
Proof.
  destruct (Z.leb_spec 65 (code c)); [destruct (Z.leb_spec (code c) 90) |].
  - apply lower_char_other. rewrite lower_char_letter by lia. lia.
  - now rewrite !(lower_char_other c) by lia.
  - now rewrite !(lower_char_other c) by lia.
Qed.

(** Lowering leaves the digits, the hyphen and the blank as they are. *)
Lemma lower_char_eqb (c : ascii) (k : Z) :
  k < 65 -> (code (lower_char c) =? k) = (code c =? k).
Proof.
  intros Hk.
  destruct (Z.leb_spec 65 (code c)); [destruct (Z.leb_spec (code c) 90) |].
  - rewrite lower_char_letter by lia.
    transitivity false; [| symmetry]; apply Z.eqb_neq; lia.
  - now rewrite lower_char_other by lia.
  - now rewrite lower_char_other by lia.
Qed.

Lemma lower_char_is_digit (c : ascii) : is_digit (lower_char c) = is_digit c.
Proof.
  destruct (Z.leb_spec 65 (code c)); [destruct (Z.leb_spec (code c) 90) |].
  - unfold is_digit. rewrite lower_char_letter by lia.
    transitivity false; [| symmetry]; apply andb_false_iff; right;
      apply Z.leb_gt; lia.
  - now rewrite lower_char_other by lia.
  - now rewrite lower_char_other by lia.
Qed.

Lemma lower_char_digit (c : ascii) :
  is_digit c = true -> lower_char c = c.
Proof.
  intros H. apply lower_char_other. unfold is_digit in H. to_prop. lia.
Qed.

Lemma lower_idem (s : string) : lower (lower s) = lower s.
Proof.
  induction s as [| c s IH]; simpl; [reflexivity |].
  now rewrite lower_char_idem, IH.
Qed.

Lemma lower_take (n : nat) (s : string) : lower (take n s) = take n (lower s).
Proof.
  revert s. induction n as [| n IH]; intros [| c s]; simpl; try reflexivity.
  now rewrite IH.
Qed.

Lemma take_take (n : nat) (s : string) : take n (take n s) = take n s.
Proof.
  revert s. induction n as [| n IH]; intros [| c s]; simpl; try reflexivity.
  now rewrite IH.
Qed.

Lemma has_hyphen_lower (s : string) : has_hyphen (lower s) = has_hyphen s.
Proof.
  induction s as [| c s IH]; simpl; [reflexivity |].
  now rewrite lower_char_eqb, IH by lia.
Qed.

Lemma expect_hyphen_lower (s : string) :
  expect_hyphen (lower s) = option_map lower (expect_hyphen s).
Proof.
  destruct s as [| c s]; simpl; [reflexivity |].
  rewrite lower_char_eqb by lia. destruct (code c =? 45); reflexivity.
Qed.

Lemma match_month_lower (s : string) :
  match_month (lower s) =
  option_map (fun mr => (fst mr, lower (snd mr))) (match_month s).
Proof.
  destruct s as [| a [| b [| c s]]]; try reflexivity.
  cbn [lower]. unfold match_month. cbn [lower].
  rewrite !lower_char_idem.
  destruct (assoc _ month_map); reflexivity.
Qed.

Lemma match_year_end_lower (s : string) :
  match_year_end (lower s) = match_year_end s.
Proof.
  destruct s as [| a [| b [| c s]]]; try reflexivity.
  cbn [lower]. unfold match_year_end. rewrite !lower_char_is_digit.
  destruct (is_digit a) eqn:Ha; [| reflexivity].
  destruct (is_digit b) eqn:Hb; [| reflexivity].
  now rewrite (lower_char_digit a Ha), (lower_char_digit b Hb).
Qed.

Lemma match_after_day_lower (d : Z) (s : string) :
  match_after_day d (lower s) = match_after_day d s.
Proof.
  unfold match_after_day. rewrite expect_hyphen_lower.
  destruct (expect_hyphen s) as [s1 |]; cbn [option_map]; [| reflexivity].
  rewrite match_month_lower.
  destruct (match_month s1) as [[m s2] |]; cbn [option_map fst snd];
    [| reflexivity].
  rewrite expect_hyphen_lower.
  destruct (expect_hyphen s2) as [s3 |]; cbn [option_map]; [| reflexivity].
  now rewrite match_year_end_lower.
Qed.

Ltac lower_alternative a b Hc :=
  unfold is_digit in Hc; to_prop;
  repeat match goal with
  | H : (_ || _) = true |- _ => apply orb_true_iff in H; destruct H; to_prop
  end;
  cbn [map fst snd lower];
  rewrite ?(lower_char_other a), ?(lower_char_other b) by lia;
  reflexivity.

Lemma day_alternatives_lower (s : string) :
  day_alternatives (lower s) =
  map (fun dr => (fst dr, lower (snd dr))) (day_alternatives s).
Proof.
  destruct s as [| a [| b s]]; [reflexivity | |].
  - cbn [lower day_alternatives].
    rewrite lower_char_is_digit, lower_char_eqb by lia.
    destruct (is_digit a && negb (code a =? 48)) eqn:Hc; [| reflexivity].
    lower_alternative a a Hc.
  - cbn [lower day_alternatives]. rewrite !map_app.
    rewrite !lower_char_is_digit, !lower_char_eqb by lia.
    repeat (f_equal;
      [ match goal with
        | |- (if ?c then _ else _) = _ =>
            destruct c eqn:Hc; [lower_alternative a b Hc | reflexivity]
        end | ]).
    match goal with
    | |- (if ?c then _ else _) = _ =>
        destruct c eqn:Hc; [lower_alternative a b Hc | reflexivity]
    end.
Qed.

Lemma first_match_lower (alts : list (Z * string)) :
  first_match (map (fun dr => (fst dr, lower (snd dr))) alts) =
  first_match alts.
Proof.
  induction alts as [| [d r] alts IH]; simpl; [reflexivity |].
  rewrite match_after_day_lower, IH. reflexivity.
Qed.

Lemma strptime_dmy_lower (s : string) :
  strptime_dmy (lower s) = strptime_dmy s.
Proof.
  unfold strptime_dmy.
  now rewrite day_alternatives_lower, first_match_lower.
Qed.

(** * Further properties of the date filter *)

Lemma filter_filter {A} (f g : A -> bool) (l : list A) :
  filter f (filter g l) = filter (fun x => g x && f x) l.
Proof.
  induction l as [| a l IH]; simpl; [reflexivity |].
  destruct (g a); simpl; [destruct (f a) |]; now rewrite IH.
Qed.

Lemma filter_none {A} (f : A -> bool) (l : list A) :
  (forall a, In a l -> f a = false) -> filter f l = [].
Proof.
  induction l as [| a l IH]; simpl; intros H; [reflexivity |].
  rewrite (H a) by now left. apply IH. intros b Hb. apply H. now right.
Qed.

Lemma filter_all {A} (f : A -> bool) (l : list A) :
  (forall a, In a l -> f a = true) -> filter f l = l.
Proof.
  induction l as [| a l IH]; simpl; intros H; [reflexivity |].
  rewrite (H a) by now left. f_equal. apply IH. intros b Hb. apply H. now right.
Qed.

Lemma filter_length_le {A} (f : A -> bool) (l : list A) :
  len (filter f l) <= len l.
Proof.
  unfold len. induction l as [| a l IH]; simpl; [lia |].
  destruct (f a); simpl List.length; lia.
Qed.

Lemma year_numbers_nil : year_numbers [] = Ok [].
Proof. reflexivity. Qed.

(** The conversion of the years fails exactly on a string that [int]
    rejects, with a [ValueError]. *)
Lemma year_numbers_Err (ys : list value) (e : exn) :
  year_numbers ys = Err e ->
  e = ValueError /\ exists s, In (VStr s) ys /\ py_int s = None.
Proof.
  induction ys as [| y ys IH]; [discriminate |].
  cbn [year_numbers]. destruct y as [| s | n]; cbn [year_number bind].
  - destruct (year_numbers ys) as [b | e'] eqn:Hb; cbn [bind]; [discriminate |].
    intros H. injection H as <-. destruct (IH eq_refl) as [-> [s [Hs Hp]]].
    split; [reflexivity |]. exists s. split; [now right | assumption].
  - destruct (py_int s) eqn:Hp; cbn [bind].
    + destruct (year_numbers ys) as [b | e'] eqn:Hb; cbn [bind]; [discriminate |].
      intros H. injection H as <-. destruct (IH eq_refl) as [-> [s' [Hs Hp']]].
      split; [reflexivity |]. exists s'. split; [now right | assumption].
    + intros H. injection H as <-. split; [reflexivity |].
      exists s. split; [now left | assumption].
  - destruct (year_numbers ys) as [b | e'] eqn:Hb; cbn [bind]; [discriminate |].
    intros H. injection H as <-. destruct (IH eq_refl) as [-> [s [Hs Hp]]].
    split; [reflexivity |]. exists s. split; [now right | assumption].
Qed.

Lemma year_numbers_bad (ys : list value) (s : string) :
  In (VStr s) ys -> py_int s = None -> year_numbers ys = Err ValueError.
Proof.
  induction ys as [| y ys IH]; [contradiction |].
  intros [-> | Hin] Hp; cbn [year_numbers].
  - cbn [year_number]. now rewrite Hp.
  - specialize (IH Hin Hp).
    destruct (year_number y) as [a | e] eqn:Hy; cbn [bind].
    + now rewrite IH.
    + destruct y as [| s' | n]; cbn [year_number] in Hy; try discriminate.
      destruct (py_int s'); [discriminate | now injection Hy as <-].
Qed.

Section FilterFacts.
Variable gen : value -> option Timestamp.

Lemma filter_active_rows (df : DataFrame) (ctx : DateContext) (ys : list Z) :
  isDateSpecific ctx = true -> has_date df = true ->
  year_numbers (years ctx) = Ok ys ->
  filter_by_date_context gen df (Some ctx) =
    Ok (with_rows df
          (filter (keeps gen (month_numbers (months ctx)) ys) (rows df))).
Proof.
  intros Hact Hd Hy. unfold filter_by_date_context.
  rewrite Hact, Hd. cbn [negb].
  assert (Hrows : forall ms,
    match ms with
    | [] => dropna gen (rows df)
    | _ :: _ => select gen (fun t => isin (month t) ms) (dropna gen (rows df))
    end = filter (keeps gen ms []) (rows df)).
  { intros ms. unfold select, dropna, keeps.
    destruct ms; [| rewrite filter_filter]; apply filter_ext; intros r;
      destruct (parse_date gen (row_date r)); cbn; try reflexivity.
    now rewrite andb_true_r. }
  assert (Hm : match months ctx with
               | [] => dropna gen (rows df)
               | _ :: _ =>
                   match month_numbers (months ctx) with
                   | [] => dropna gen (rows df)
                   | _ :: _ =>
                       select gen
                         (fun t => isin (month t) (month_numbers (months ctx)))
                         (dropna gen (rows df))
                   end
               end = filter (keeps gen (month_numbers (months ctx)) []) (rows df)).
  { rewrite <- Hrows. destruct (months ctx); reflexivity. }
  destruct (month_numbers (months ctx)) as [| m ms] eqn:Hms.
  - assert (Hm' : match months ctx with
                  | [] => dropna gen (rows df)
                  | _ :: _ => dropna gen (rows df)
                  end = filter (keeps gen [] []) (rows df))
      by (rewrite <- Hm; destruct (months ctx); reflexivity).
    replace (match months ctx with
             | [] => dropna gen (rows df)
             | _ :: _ => dropna gen (rows df)
             end) with (filter (keeps gen [] []) (rows df)).
    destruct (years ctx) as [| y l].
    + injection Hy as <-. reflexivity.
    + rewrite Hy. cbn [bind]. destruct ys as [| y0 ys]; [reflexivity |].
      do 2 f_equal. unfold select, keeps. rewrite filter_filter.
      apply filter_ext. intros r.
      destruct (parse_date gen (row_date r)); reflexivity.
  - replace (match months ctx with
             | [] => dropna gen (rows df)
             | _ :: _ =>
                 select gen (fun t => isin (month t) (m :: ms))
                        (dropna gen (rows df))
             end) with (filter (keeps gen (m :: ms) []) (rows df)).
    destruct (years ctx) as [| y l].
    + injection Hy as <-. reflexivity.
    + rewrite Hy. cbn [bind]. destruct ys as [| y0 ys]; [reflexivity |].
      do 2 f_equal. unfold select, keeps. rewrite filter_filter.
      apply filter_ext. intros r.
      destruct (parse_date gen (row_date r)); [| reflexivity].
      now rewrite andb_true_r.
Qed.
End FilterFacts.

Lemma py_int_two_digits_table :
  forallb (fun n => match py_int (two_digits n) with
                    | Some m => m =? n
                    | None => false
                    end) (range 0 100) = true.
Proof. vm_compute. reflexivity. Qed.

Lemma py_int_two_digits (n : Z) :
  0 <= n < 100 -> py_int (two_digits n) = Some n.
Proof.
  intros Hn.
  pose proof (forallb_In _ _ n py_int_two_digits_table
                (range_In 0 100 n ltac:(lia))) as H.
  cbv beta in H. destruct (py_int (two_digits n)) as [m |]; [| discriminate].
  apply Z.eqb_eq in H. now subst.
Qed.

Lemma isin_false (x : Z) (l : list Z) :
  (forall y, In y l -> y <> x) -> isin x l = false.
Proof.
  intros H. unfold isin.
  destruct (existsb (Z.eqb x) l) eqn:He; [| reflexivity].
  apply existsb_exists in He. destruct He as [y [Hy Hxy]].
  apply Z.eqb_eq in Hxy. subst. now elim (H y Hy).
Qed.

Lemma month_number_range (v : value) (m : Z) :
  (forall n, v <> VInt n) -> In m (month_number v) -> 1 <= m <= 12.
Proof.
  intros Hv. destruct v as [| s | n]; cbn [month_number].
  - contradiction.
  - destruct (assoc (take 3 (lower s)) month_map) as [k |] eqn:Ha;
      [| contradiction].
    intros [<- | []]. unfold month_map in Ha. cbn [assoc] in Ha.
    repeat match type of Ha with
    | (if ?c then _ else _) = _ => destruct c; [injection Ha as <-; lia |]
    end.
    discriminate.
  - now elim (Hv n).
Qed.

Section FilterProperties.
Variable gen : value -> option Timestamp.

Lemma filter_active_inv (df df' : DataFrame) (ctx : DateContext) :
  isDateSpecific ctx = true ->
  filter_by_date_context gen df (Some ctx) = Ok df' ->
  has_date df = true /\
  exists ys, year_numbers (years ctx) = Ok ys /\
    df' = with_rows df
            (filter (keeps gen (month_numbers (months ctx)) ys) (rows df)).
Proof.
  intros Hact H.
  destruct (has_date df) eqn:Hd.
  - split; [reflexivity |].
    destruct (year_numbers (years ctx)) as [ys | e] eqn:Hy.
    + exists ys. split; [reflexivity |].
      rewrite (filter_active_rows gen df ctx ys Hact Hd Hy) in H.
      now injection H as <-.
    + exfalso. unfold filter_by_date_context in H.
      rewrite Hact, Hd in H. cbn [negb] in H.
      destruct (years ctx); [discriminate |].
      rewrite Hy in H. discriminate.
  - unfold filter_by_date_context in H. rewrite Hact, Hd in H. discriminate.
Qed.

Lemma filter_rows_filter (df df' : DataFrame)
    (date_context : option DateContext) :
  filter_by_date_context gen df date_context = Ok df' ->
  (exists p, rows df' = filter p (rows df)) /\
  has_date df' = has_date df /\ has_amount df' = has_amount df /\
  has_account df' = has_account df.
Proof.
  intros H. destruct date_context as [ctx |].
  - destruct (isDateSpecific ctx) eqn:Hact.
    + destruct (filter_active_inv df df' ctx Hact H) as [_ [ys [_ ->]]].
      split; [eexists; reflexivity | auto].
    + rewrite (filter_inactive gen df (Some ctx) Hact) in H. injection H as <-.
      split; [| auto]. exists (fun _ => true). symmetry. now apply filter_all.
  - injection H as <-.
    split; [| auto]. exists (fun _ => true). symmetry. now apply filter_all.
Qed.

(** X1: a date read from a string with a hyphen is a valid calendar date of
    the years 1969 to 2068. *)
Theorem X1_strict_dates_valid (s : string) (t : Timestamp) :
  has_hyphen s = true -> parse_date gen (VStr s) = Some t ->
  valid_date t = true /\ 1969 <= year t <= 2068 /\
  1 <= month t <= 12 /\ 1 <= day t <= 31.
Proof.
  intros Hh Hp. rewrite parse_date_hyphen, coerce_strptime_dmy in Hp by assumption.
  destruct (strptime_dmy_sound s t Hp) as [Hv Hy].
  destruct (valid_date_day_month t Hv). auto.
Qed.

(** X2: the strict parse does not depend on the letter case: two strings
    with a hyphen that agree once lowered parse alike. *)
Theorem X2_strict_parse_ignores_case (s s' : string) :
  lower s = lower s' -> has_hyphen s = true ->
  parse_date gen (VStr s) = parse_date gen (VStr s').
Proof.
  intros Hl Hh.
  assert (Hh' : has_hyphen s' = true)
    by now rewrite <- has_hyphen_lower, <- Hl, has_hyphen_lower.
  rewrite !parse_date_hyphen by assumption.
  now rewrite <- (strptime_dmy_lower s), <- (strptime_dmy_lower s'), Hl.
Qed.

(** X3: a date read from a string with a hyphen and formatted the way
    [date_range] formats it reads back as the same date. *)
Theorem X3_formatted_date_reads_back (s : string) (t : Timestamp) :
  has_hyphen s = true -> parse_date gen (VStr s) = Some t ->
  parse_date gen (VStr (strftime_dmy t)) = Some t.
Proof.
  intros Hh Hp. rewrite parse_date_hyphen, coerce_strptime_dmy in Hp by assumption.
  destruct (strptime_dmy_sound s t Hp) as [Hv Hy].
  pose proof (roundtrip_valid t Hv Hy) as Hr.
  unfold roundtrip_ok in Hr. apply andb_true_iff in Hr. destruct Hr as [Hh' Hr].
  rewrite parse_date_hyphen by assumption.
  destruct (coerce (strptime_dmy (strftime_dmy t))) as [t' |]; [| discriminate].
  apply Timestamp_eqb_eq in Hr. now subst.
Qed.

(** X4: an active filter on a frame with a date column, whose years
    convert and some date of which parses, returns exactly the rows whose
    date parses, whose month is in the normalised month set unless that set
    is empty, and whose year is in the normalised year set unless that set
    is empty; the order of the rows is kept. *)
Theorem X4_filter_keeps (df : DataFrame) (ctx : DateContext) (ys : list Z) :
  isDateSpecific ctx = true -> has_date df = true ->
  year_numbers (years ctx) = Ok ys ->
  datetimelike gen (rows df) ->
  filter_by_date_context gen df (Some ctx) =
    Ok (with_rows df
          (filter (keeps gen (month_numbers (months ctx)) ys) (rows df))).
Proof. intros Hact Hd Hy _. now apply filter_active_rows. Qed.

(** X5: filtering is idempotent: a frame with rows that the filter
    returned passes the same filter unchanged. *)
Theorem X5_filter_idempotent (df df' : DataFrame)
    (date_context : option DateContext) :
  filter_by_date_context gen df date_context = Ok df' ->
  rows df' <> [] ->
  filter_by_date_context gen df' date_context = Ok df'.
Proof.
  intros H _. destruct date_context as [ctx |]; [| reflexivity].
  destruct (isDateSpecific ctx) eqn:Hact;
    [| now apply (filter_inactive gen df' (Some ctx))].
  destruct (filter_active_inv df df' ctx Hact H) as [Hd [ys [Hy ->]]].
  erewrite filter_active_rows; [| exact Hact | exact Hd | exact Hy].
  unfold with_rows. cbn [rows has_date has_amount has_account].
  do 2 f_equal. rewrite filter_filter. apply filter_ext.
  intros r. apply andb_diag.
Qed.

(** X6: the filter only drops rows: what it returns is a selection of the
    rows it was given, in their order, with the same columns. *)
Theorem X6_filter_only_drops (df df' : DataFrame)
    (date_context : option DateContext) :
  filter_by_date_context gen df date_context = Ok df' ->
  (exists p, rows df' = filter p (rows df)) /\
  (forall r, In r (rows df') -> In r (rows df)) /\
  len (rows df') <= len (rows df) /\
  has_date df' = has_date df /\ has_account df' = has_account df.
Proof.
  intros H.
  destruct (filter_rows_filter df df' date_context H) as [[p Hp] [Hd [_ Ha]]].
  split; [now exists p |]. rewrite Hp.
  split; [| split; [apply filter_length_le | auto]].
  intros r Hr. now apply filter_In in Hr.
Qed.

(** X7: month numbers outside 1 to 12, which only integer entries can give,
    are not discarded: when every normalised month is out of range, the
    active filter drops every row. *)
Theorem X7_months_out_of_range (df df' : DataFrame) (ctx : DateContext) :
  isDateSpecific ctx = true ->
  month_numbers (months ctx) <> [] ->
  (forall m, In m (month_numbers (months ctx)) -> m < 1 \/ 12 < m) ->
  filter_by_date_context gen df (Some ctx) = Ok df' ->
  rows df' = [] /\
  (forall v m, In v (months ctx) -> In m (month_number v) ->
               exists n, v = VInt n).
Proof.
  intros Hact Hne Hout H. split.
  - destruct (filter_active_inv df df' ctx Hact H) as [_ [ys [_ ->]]].
    cbn [rows with_rows]. apply filter_none. intros r _. unfold keeps.
    destruct (parse_date gen (row_date r)) as [t |] eqn:Hp; [| reflexivity].
    apply parse_date_in_bounds, in_bounds_year_month in Hp.
    destruct (month_numbers (months ctx)) as [| m ms] eqn:Hms;
      [contradiction |].
    rewrite isin_false; [reflexivity |].
    intros y Hy Heq. specialize (Hout y Hy). lia.
  - intros v m Hv Hm. destruct v as [| s | n]; [contradiction | | now exists n].
    exfalso.
    assert (Hr : 1 <= m <= 12).
    { apply (month_number_range (VStr s)); [discriminate | assumption]. }
    assert (Hin : In m (month_numbers (months ctx))).
    { unfold month_numbers. apply in_flat_map. now exists (VStr s). }
    specialize (Hout m Hin). lia.
Qed.

(** X8: a two-character year is read as 2000 plus its value: filtering on
    the string "YY" is filtering on the integer 2000+YY. *)
Theorem X8_two_character_year (df : DataFrame) (ms : list value) (n : Z) :
  0 <= n < 100 ->
  year_number (VStr (two_digits n)) = Ok [2000 + n] /\
  filter_by_date_context gen df
    (Some {| isDateSpecific := true; months := ms;
             years := [VStr (two_digits n)] |}) =
  filter_by_date_context gen df
    (Some {| isDateSpecific := true; months := ms;
             years := [VInt (2000 + n)] |}).
Proof.
  intros Hn.
  assert (Hy : year_number (VStr (two_digits n)) = Ok [2000 + n]).
  { cbn [year_number]. now rewrite py_int_two_digits. }
  split; [exact Hy |].
  unfold filter_by_date_context. cbn [isDateSpecific months years negb].
  cbn [year_numbers]. rewrite Hy. reflexivity.
Qed.

(** X9: the strict parse only gives years from 1969 to 2068, so a year
    filter whose years all lie outside that range - as the two-character
    years "69" to "99", read as 2069 to 2099 - drops every row whose date is
    a string with a hyphen. *)
Theorem X9_years_outside_strict_range (df df' : DataFrame)
    (ctx : DateContext) (ys : list Z) :
  isDateSpecific ctx = true ->
  year_numbers (years ctx) = Ok ys -> ys <> [] ->
  (forall y, In y ys -> y < 1969 \/ 2068 < y) ->
  (forall r, In r (rows df) -> hyphen_dated r) ->
  filter_by_date_context gen df (Some ctx) = Ok df' ->
  rows df' = [].
Proof.
  intros Hact Hy Hne Hout Hrows H.
  destruct (filter_active_inv df df' ctx Hact H) as [_ [ys' [Hy' ->]]].
  rewrite Hy in Hy'. injection Hy' as <-.
  cbn [rows with_rows]. apply filter_none. intros r Hr. unfold keeps.
  destruct (Hrows r Hr) as [s [Hs Hh]]. rewrite Hs.
  rewrite parse_date_hyphen, coerce_strptime_dmy by assumption.
  destruct (strptime_dmy s) as [t |] eqn:Hp; [| reflexivity].
  apply strptime_dmy_sound in Hp. destruct Hp as [_ Hyear].
  destruct ys as [| y0 ys]; [contradiction |].
  rewrite (isin_false (year t)); [apply andb_false_r |].
  intros y Hin Heq. specialize (Hout y Hin). lia.
Qed.
End FilterProperties.

(** * Further properties of the aggregations *)

Lemma sum_cons (a : Z) (l : list Z) : sum (a :: l) = a + sum l.
Proof. reflexivity. Qed.

Lemma sum_app (l l' : list Z) : sum (l ++ l') = sum l + sum l'.
Proof.
  unfold sum. induction l as [| a l IH]; simpl; [reflexivity | lia].
Qed.

Lemma sum_Permutation (l l' : list Z) : Permutation l l' -> sum l = sum l'.
Proof.
  unfold sum. induction 1; simpl; lia.
Qed.

Lemma sum_zero {A} (f : A -> Z) (l : list A) :
  (forall a, In a l -> f a = 0) -> sum (map f l) = 0.
Proof.
  unfold sum. induction l as [| a l IH]; simpl; intros H; [reflexivity |].
  rewrite (H a) by now left. rewrite IH; [reflexivity |].
  intros b Hb. apply H. now right.
Qed.

(** Summing over the selected elements is summing the selected weights. *)
Lemma sum_filter {A} (f : A -> bool) (w : A -> Z) (l : list A) :
  sum (map w (filter f l)) = sum (map (fun a => if f a then w a else 0) l).
Proof.
  unfold sum. induction l as [| a l IH]; simpl; [reflexivity |].
  destruct (f a); simpl; lia.
Qed.

Section GroupSums.
Context {K A : Type} (eqb leb : K -> K -> bool).
Hypothesis eqb_spec : forall a b, eqb a b = true <-> a = b.

Lemma weight_key (k0 : K) (c : Z) (ks : list K) :
  NoDup ks -> In k0 ks ->
  sum (map (fun k => if eqb k0 k then c else 0) ks) = c.
Proof.
  unfold sum.
  induction ks as [| k ks IH]; simpl; intros Hnd Hin; [contradiction |].
  inversion Hnd as [| ? ? Hnotin Hnd']; subst.
  destruct (eqb k0 k) eqn:He.
  - apply eqb_spec in He. subst k.
    fold (sum (map (fun k => if eqb k0 k then c else 0) ks)).
    rewrite sum_zero; [lia |].
    intros k Hk. destruct (eqb k0 k) eqn:He; [| reflexivity].
    apply eqb_spec in He. now subst.
  - destruct Hin as [-> | Hin].
    + assert (eqb k0 k0 = true) by now apply eqb_spec. congruence.
    + rewrite IH by assumption. lia.
Qed.

(** The groups partition the elements: the group totals of a weight add up
    to its total. *)
Lemma group_sums (key : A -> K) (w : A -> Z) (l : list A) (ks : list K) :
  NoDup ks -> (forall a, In a l -> In (key a) ks) ->
  sum (map (fun k => sum (map w (filter (fun a => eqb (key a) k) l))) ks) =
  sum (map w l).
Proof.
  intros Hnd. induction l as [| a l IH]; intros Hin.
  - cbn [filter map]. apply sum_zero. reflexivity.
  - assert (Hsplit : forall ks',
      sum (map (fun k => sum (map w (filter (fun a => eqb (key a) k) (a :: l)))) ks') =
      sum (map (fun k => if eqb (key a) k then w a else 0) ks') +
      sum (map (fun k => sum (map w (filter (fun a => eqb (key a) k) l))) ks')).
    { induction ks' as [| k ks' IHk]; [reflexivity |].
      cbn [map]. change (sum (?x :: ?r)) with (x + sum r).
      rewrite IHk. cbn [filter].
      destruct (eqb (key a) k); cbn [map];
        change (sum (?x :: ?r)) with (x + sum r); lia. }
    rewrite Hsplit, weight_key, IH.
    + reflexivity.
    + intros a' Ha'. apply Hin. now right.
    + assumption.
    + apply Hin. now left.
Qed.

Lemma groupby_sums (key : A -> K) (w : A -> Z) (l : list A) :
  sum (map (fun kg => sum (map w (snd kg))) (groupby eqb leb key l)) =
  sum (map w l).
Proof.
  unfold groupby. rewrite map_map. cbn [snd].
  apply group_sums.
  - rewrite <- (groupby_keys eqb leb). now apply groupby_keys_NoDup.
  - intros a Ha. rewrite <- (groupby_keys eqb leb).
    apply (proj2 (groupby_keys_In eqb leb eqb_spec key l (key a))).
    now apply in_map.
Qed.

(** No group is empty. *)
Lemma groupby_nonempty (key : A -> K) (l : list A) (k : K) (g : list A) :
  In (k, g) (groupby eqb leb key l) -> g <> [].
Proof.
  intros Hin.
  assert (Hk : In k (map fst (groupby eqb leb key l)))
    by (apply in_map_iff; now exists (k, g)).
  apply (proj1 (groupby_keys_In eqb leb eqb_spec key l k)) in Hk.
  apply in_map_iff in Hk. destruct Hk as [a [Hka Ha]].
  apply groupby_group in Hin. subst g.
  intros Hnil.
  assert (Hf : In a (filter (fun a0 => eqb (key a0) k) l)).
  { apply filter_In. split; [assumption | now apply eqb_spec]. }
  rewrite Hnil in Hf. contradiction.
Qed.

Lemma groupby_In_key (key : A -> K) (l : list A) (a : A) :
  In a l ->
  In (key a, filter (fun a0 => eqb (key a0) (key a)) l) (groupby eqb leb key l).
Proof.
  intros Ha. unfold groupby. apply in_map_iff. exists (key a).
  split; [reflexivity |].
  rewrite <- (groupby_keys eqb leb).
  apply (proj2 (groupby_keys_In eqb leb eqb_spec key l (key a))).
  now apply in_map.
Qed.
End GroupSums.

(** ** The order of periods and of dates *)

Lemma Period_ltb_iff (p q : Period) :
  Period_ltb p q = true <->
  fst p < fst q \/ (fst p = fst q /\ snd p < snd q).
Proof.
  unfold Period_ltb.
  now rewrite orb_true_iff, andb_true_iff, !Z.ltb_lt, Z.eqb_eq.
Qed.

Lemma Period_leb_iff (p q : Period) :
  Period_leb p q = true <->
  fst p < fst q \/ (fst p = fst q /\ snd p <= snd q).
Proof.
  unfold Period_leb. rewrite negb_true_iff, <- not_true_iff_false, Period_ltb_iff.
  lia.
Qed.

Lemma Period_leb_total (p q : Period) :
  Period_leb p q = true \/ Period_leb q p = true.
Proof. rewrite !Period_leb_iff. lia. Qed.

Lemma Period_leb_lt (p q : Period) :
  Period_leb p q = true -> p <> q -> Period_ltb p q = true.
Proof.
  rewrite Period_leb_iff, Period_ltb_iff. intros H Hne.
  assert (snd p <> snd q \/ fst p <> fst q).
  { destruct (Z.eq_dec (snd p) (snd q)) as [Hs |]; [| now left].
    right. intros Hf. apply Hne. destruct p, q. cbn in *. congruence. }
  lia.
Qed.

Lemma Period_leb_trans (p q r : Period) :
  Period_leb p q = true -> Period_leb q r = true -> Period_leb p r = true.
Proof. rewrite !Period_leb_iff. lia. Qed.

(** Sorting distinct periods puts them in strictly ascending order. *)
Lemma sort_periods_ascending (l : list Period) :
  NoDup l ->
  StronglySorted (fun p q => Period_ltb p q = true) (sort Period_leb l).
Proof.
  intros Hnd.
  assert (Hnd' : NoDup (sort Period_leb l)).
  { eapply Permutation_NoDup; [apply Permutation_sym, sort_Permutation | exact Hnd]. }
  assert (Hs : StronglySorted (fun p q => Period_leb p q = true)
                              (sort Period_leb l)).
  { apply Sorted_StronglySorted.
    - intros p q r. apply Period_leb_trans.
    - apply sort_Sorted, Period_leb_total. }
  induction Hs as [| p l' _ IH Hall]; constructor.
  - apply IH. now inversion Hnd'.
  - inversion Hnd' as [| ? ? Hnotin _]; subst.
    rewrite Forall_forall in *. intros q Hq.
    apply Period_leb_lt; [now apply Hall |]. intros ->. contradiction.
Qed.

Lemma Timestamp_leb_iff (a b : Timestamp) :
  Timestamp_leb a b = true <->
  year a < year b \/
  (year a = year b /\
   (month a < month b \/ (month a = month b /\ day a <= day b))).
Proof.
  unfold Timestamp_leb.
  repeat (rewrite orb_true_iff || rewrite andb_true_iff).
  now rewrite !Z.ltb_lt, !Z.eqb_eq, Z.leb_le.
Qed.

Lemma Timestamp_leb_refl (a : Timestamp) : Timestamp_leb a a = true.
Proof. rewrite Timestamp_leb_iff. lia. Qed.

Lemma Timestamp_leb_total (a b : Timestamp) :
  Timestamp_leb a b = true \/ Timestamp_leb b a = true.
Proof. rewrite !Timestamp_leb_iff. lia. Qed.

Lemma Timestamp_leb_trans (a b c : Timestamp) :
  Timestamp_leb a b = true -> Timestamp_leb b c = true ->
  Timestamp_leb a c = true.
Proof. rewrite !Timestamp_leb_iff. lia. Qed.

Lemma fold_min_date (dates : list Timestamp) (t : Timestamp) :
  In (fold_left min_date dates t) (t :: dates) /\
  forall x, In x (t :: dates) ->
            Timestamp_leb (fold_left min_date dates t) x = true.
Proof.
  revert t. induction dates as [| d dates IH]; intros t; cbn [fold_left].
  - split; [now left |]. intros x [<- | []]. apply Timestamp_leb_refl.
  - destruct (IH (min_date t d)) as [Hin Hle].
    assert (Hm : (min_date t d = t \/ min_date t d = d) /\
                 Timestamp_leb (min_date t d) t = true /\
                 Timestamp_leb (min_date t d) d = true).
    { unfold min_date. destruct (Timestamp_leb t d) eqn:Htd.
      - repeat split; [now left | apply Timestamp_leb_refl | assumption].
      - repeat split; [now right | | apply Timestamp_leb_refl].
        destruct (Timestamp_leb_total t d); congruence. }
    destruct Hm as [Hsel [Hmt Hmd]]. split.
    + destruct Hin as [Hin | Hin].
      * rewrite <- Hin. destruct Hsel as [-> | ->]; [now left | right; now left].
      * right. now right.
    + intros x [<- | [<- | Hx]].
      * eapply Timestamp_leb_trans; [apply Hle; now left | exact Hmt].
      * eapply Timestamp_leb_trans; [apply Hle; now left | exact Hmd].
      * apply Hle. now right.
Qed.

Lemma fold_max_date (dates : list Timestamp) (t : Timestamp) :
  In (fold_left max_date dates t) (t :: dates) /\
  forall x, In x (t :: dates) ->
            Timestamp_leb x (fold_left max_date dates t) = true.
Proof.
  revert t. induction dates as [| d dates IH]; intros t; cbn [fold_left].
  - split; [now left |]. intros x [<- | []]. apply Timestamp_leb_refl.
  - destruct (IH (max_date t d)) as [Hin Hle].
    assert (Hm : (max_date t d = t \/ max_date t d = d) /\
                 Timestamp_leb t (max_date t d) = true /\
                 Timestamp_leb d (max_date t d) = true).
    { unfold max_date. destruct (Timestamp_leb t d) eqn:Htd.
      - repeat split; [now right | assumption | apply Timestamp_leb_refl].
      - repeat split; [now left | apply Timestamp_leb_refl |].
        destruct (Timestamp_leb_total t d); congruence. }
    destruct Hm as [Hsel [Hmt Hmd]]. split.
    + destruct Hin as [Hin | Hin].
      * rewrite <- Hin. destruct Hsel as [-> | ->]; [now left | right; now left].
      * right. now right.
    + intros x [<- | [<- | Hx]].
      * eapply Timestamp_leb_trans; [exact Hmt | apply Hle; now left].
      * eapply Timestamp_leb_trans; [exact Hmd | apply Hle; now left].
      * apply Hle. now right.
Qed.

Lemma sales_by_month_amount (l : list (Timestamp * row)) :
  (forall ta, In ta l -> in_bounds (fst ta) = true) ->
  total_month_amount (sales_by_month l) =
  sum (map (fun tr => row_amount (snd tr)) l).
Proof.
  intros Hb. rewrite sales_by_month_items by assumption.
  unfold total_month_amount. rewrite map_map. cbn [snd entry_amount].
  apply (groupby_sums Period_eqb Period_leb Period_eqb_eq).
Qed.

Section SalesFacts.
Variable gen : value -> option Timestamp.

Lemma with_dates_In {A} (get_date : A -> value) (l : list A)
    (t : Timestamp) (a : A) :
  In (t, a) (with_dates gen get_date l) <->
  In a l /\ parse_date gen (get_date a) = Some t.
Proof.
  unfold with_dates. rewrite in_flat_map. split.
  - intros [a' [Ha' Hin]].
    destruct (parse_date gen (get_date a')) as [t' |] eqn:Hp; [| contradiction].
    destruct Hin as [Heq | []]. injection Heq as <- <-. auto.
  - intros [Ha Hp]. exists a. split; [assumption |]. rewrite Hp. now left.
Qed.

Lemma with_dates_snd {A} (get_date : A -> value) (l : list A) :
  map snd (with_dates gen get_date l) =
  filter (fun a => is_some (parse_date gen (get_date a))) l.
Proof.
  unfold with_dates. induction l as [| a l IH]; [reflexivity |].
  cbn [flat_map filter]. destruct (parse_date gen (get_date a)); cbn;
    now rewrite IH.
Qed.

Lemma with_dates_nil {A} (get_date : A -> value) (l : list A) :
  (forall a, In a l -> parse_date gen (get_date a) = None) ->
  with_dates gen get_date l = [].
Proof.
  unfold with_dates. induction l as [| a l IH]; intros H; [reflexivity |].
  cbn [flat_map]. rewrite (H a) by now left. cbn [app].
  apply IH. intros b Hb. apply H. now right.
Qed.

Lemma month_amount_dated (l : list row) :
  total_month_amount (sales_by_month (with_dates gen row_date l)) =
  sum_amount (dropna gen l).
Proof.
  rewrite sales_by_month_amount by apply with_dates_in_bounds.
  unfold sum_amount, dropna.
  rewrite <- (with_dates_snd row_date l), map_map. reflexivity.
Qed.

Lemma dropna_all (l : list row) :
  Forall (fun r => is_some (parse_date gen (row_date r)) = true) l ->
  dropna gen l = l.
Proof.
  intros H. apply filter_all. now apply Forall_forall.
Qed.

(** What [calculate_sales] does once the frame is built. *)
Lemma calculate_sales_frame (sales_data : list record)
    (date_context : option DateContext) (df0 : DataFrame) :
  numeric_frame sales_data = Ok df0 ->
  calculate_sales gen sales_data date_context =
    df <- filter_by_date_context gen df0 date_context ;;
    if negb (has_date df) then Err (KeyError "date")
    else
      Ok {| total_amount := sum_amount (rows df);
            voucher_count := len (rows df);
            monthly_breakdown :=
              sales_by_month (with_dates gen row_date (rows df));
            customer_breakdown :=
              if has_account df then top_customers (rows df) else [];
            date_range := format_range (with_dates gen row_date (rows df)) |}.
Proof.
  intros H0. destruct sales_data as [| r data]; [discriminate |].
  unfold calculate_sales. rewrite H0. reflexivity.
Qed.

Lemma numeric_frame_Ok (sales_data : list record) :
  has_key amount sales_data = true ->
  numeric_frame sales_data =
    Ok {| has_date := has_key date sales_data;
          has_amount := true;
          has_account := has_key account sales_data;
          rows := map to_row sales_data |}.
Proof.
  intros Ha. unfold numeric_frame. now rewrite Ha.
Qed.

(** X10: a request with records can only succeed when some record carries
    an [amount] key, some record carries a [date] key and, if the filter is
    active, every year string is an integer literal; and it does succeed
    under these conditions when the filter is not active, or when it is
    active and the date of some record parses. *)
Theorem X10_sales_success (sales_data : list record)
    (date_context : option DateContext) :
  sales_data <> [] ->
  ((exists s, calculate_sales gen sales_data date_context = Ok s) ->
   has_key amount sales_data = true /\ has_key date sales_data = true /\
   (forall ctx, date_context = Some ctx -> isDateSpecific ctx = true ->
                exists ys, year_numbers (years ctx) = Ok ys)) /\
  (has_key amount sales_data = true -> has_key date sales_data = true ->
   (inactive date_context \/
    (exists ctx ys, date_context = Some ctx /\
       year_numbers (years ctx) = Ok ys /\
       datetimelike gen (map to_row sales_data))) ->
   exists s, calculate_sales gen sales_data date_context = Ok s).
Proof.
  intros Hne. split.
  - intros [s Hs].
    destruct (calculate_sales_Ok gen _ _ _ Hne Hs) as [df0 [df [H0 [H1 [Hd _]]]]].
    assert (Ha : has_key amount sales_data = true).
    { unfold numeric_frame in H0.
      destruct (has_key amount sales_data); [reflexivity | discriminate]. }
    destruct (numeric_frame_rows _ _ H0) as [_ [Hd0 _]].
    destruct (filter_rows_filter gen _ _ _ H1) as [_ [Hd1 _]].
    split; [exact Ha |]. split; [congruence |].
    intros ctx -> Hact.
    destruct (filter_active_inv gen _ _ _ Hact H1) as [_ [ys [Hy _]]].
    now exists ys.
  - intros Ha Hd Hy.
    rewrite (calculate_sales_frame _ _ _ (numeric_frame_Ok _ Ha)).
    destruct Hy as [Hin | [ctx [ys [-> [Hys _]]]]].
    + rewrite filter_inactive by exact Hin.
      cbn [bind has_date]. rewrite Hd. cbn [negb]. eexists. reflexivity.
    + destruct (isDateSpecific ctx) eqn:Hact.
      * erewrite filter_active_rows; [| exact Hact | exact Hd | exact Hys].
        cbn [bind has_date with_rows]. rewrite Hd. cbn [negb].
        eexists. reflexivity.
      * rewrite filter_inactive by exact Hact.
        cbn [bind has_date]. rewrite Hd. cbn [negb]. eexists. reflexivity.
Qed.

(** X11: a request with records fails with [KeyError 'amount'] when no
    record has an amount, else with [KeyError 'date'] when no record has a
    date, else with [ValueError] when the filter is active, the date of some
    record parses and a year string is not an integer literal. *)
Theorem X11_sales_errors (sales_data : list record)
    (date_context : option DateContext) :
  sales_data <> [] ->
  (has_key amount sales_data = false ->
   calculate_sales gen sales_data date_context = Err (KeyError "amount")) /\
  (has_key amount sales_data = true -> has_key date sales_data = false ->
   calculate_sales gen sales_data date_context = Err (KeyError "date")) /\
  (has_key amount sales_data = true -> has_key date sales_data = true ->
   forall ctx s, date_context = Some ctx -> isDateSpecific ctx = true ->
     datetimelike gen (map to_row sales_data) ->
     In (VStr s) (years ctx) -> py_int s = None ->
     calculate_sales gen sales_data date_context = Err ValueError).
Proof.
  intros Hne. split; [| split].
  - intros Ha. destruct sales_data as [| r data]; [contradiction |].
    unfold calculate_sales, numeric_frame. now rewrite Ha.
  - intros Ha Hd.
    rewrite (calculate_sales_frame _ _ _ (numeric_frame_Ok _ Ha)).
    destruct date_context as [ctx |].
    + destruct (isDateSpecific ctx) eqn:Hact.
      * unfold filter_by_date_context. rewrite Hact. cbn [negb has_date].
        now rewrite Hd.
      * rewrite filter_inactive by exact Hact. cbn [bind has_date].
        now rewrite Hd.
    + cbn [filter_by_date_context bind has_date]. now rewrite Hd.
  - intros Ha Hd ctx s -> Hact _ Hin Hp.
    rewrite (calculate_sales_frame _ _ _ (numeric_frame_Ok _ Ha)).
    unfold filter_by_date_context. rewrite Hact. cbn [negb has_date].
    rewrite Hd. cbn [negb].
    destruct (years ctx) as [| y l] eqn:Hys; [contradiction |].
    now rewrite (year_numbers_bad (y :: l) s Hin Hp).
Qed.

(** X12: for amounts that integers represent exactly, the amounts of the
    monthly breakdown add up to the amounts of the rows whose date parses:
    to the total amount when the filter is active, and to the amounts of
    the records with a parseable date when it is not. *)
Theorem X12_monthly_amounts (sales_data : list record)
    (date_context : option DateContext) (amounts : list Z)
    (s : SalesSummary) :
  exact_amounts sales_data amounts ->
  calculate_sales gen sales_data date_context = Ok s ->
  (active date_context ->
   total_month_amount (monthly_breakdown s) = total_amount s) /\
  (inactive date_context ->
   total_month_amount (monthly_breakdown s) =
   total (dated_amounts gen sales_data amounts)).
Proof.
  intros [Hex _] Hs. rewrite <- (dated_numeric gen _ _ Hex).
  change (total ?l) with (sum l). clear Hex.
  destruct sales_data as [| r data].
  - injection Hs as <-. split; reflexivity.
  - assert (Hne : r :: data <> []) by discriminate.
    destruct (calculate_sales_Ok gen _ _ _ Hne Hs) as [df0 [df [H0 [H1 [_ ->]]]]].
    cbn [monthly_breakdown total_amount]. rewrite month_amount_dated. split.
    + intros Hact. destruct (filter_active gen _ _ _ Hact H1) as [Hall _].
      now rewrite dropna_all.
    + intros Hin. rewrite filter_inactive in H1 by assumption.
      injection H1 as <-. destruct (numeric_frame_rows _ _ H0) as [-> _].
      unfold sum_amount, dropna.
      set (d := r :: data). clearbody d. clear.
      induction d as [| x d IH]; [reflexivity |].
      cbn [map filter]. unfold record_date at 1.
      destruct (is_some (parse_date gen (row_date (to_row x)))); cbn [map];
        [rewrite !sum_cons, IH; reflexivity | exact IH].
Qed.

(** X13: the keys of the monthly breakdown are the renderings of strictly
    ascending periods, no key occurs twice, and every entry counts at least
    one row. *)
Theorem X13_month_keys_ascending (sales_data : list record)
    (date_context : option DateContext) (s : SalesSummary) :
  calculate_sales gen sales_data date_context = Ok s ->
  (exists periods,
     map fst (monthly_breakdown s) = map Period_str periods /\
     StronglySorted (fun p q => Period_ltb p q = true) periods) /\
  NoDup (map fst (monthly_breakdown s)) /\
  (forall k e, In (k, e) (monthly_breakdown s) -> 1 <= entry_count e).
Proof.
  intros Hs. destruct sales_data as [| r data].
  - injection Hs as <-. cbn. split; [| split].
    + exists []. split; [reflexivity | constructor].
    + constructor.
    + contradiction.
  - assert (Hne : r :: data <> []) by discriminate.
    destruct (calculate_sales_Ok gen _ _ _ Hne Hs) as [df0 [df [H0 [H1 [_ ->]]]]].
    cbn [monthly_breakdown].
    set (l := with_dates gen row_date (rows df)).
    assert (Hb : forall ta, In ta l -> in_bounds (fst ta) = true)
      by apply with_dates_in_bounds.
    rewrite (sales_by_month_items l Hb). rewrite !map_map. cbn [fst].
    split; [| split].
    + exists (map fst (groupby Period_eqb Period_leb
                         (fun tr : Timestamp * row => to_period (fst tr)) l)).
      split; [now rewrite map_map |].
      rewrite groupby_keys. apply sort_periods_ascending.
      apply (unique_NoDup Period_eqb Period_leb Period_eqb_eq).
    + rewrite <- (map_map fst Period_str). now apply month_keys_NoDup.
    + intros k e Hin. apply in_map_iff in Hin.
      destruct Hin as [[p g] [Heq Hg]]. injection Heq as _ <-.
      cbn [entry_count snd].
      apply (groupby_nonempty Period_eqb Period_leb Period_eqb_eq) in Hg.
      unfold len. destruct g; [contradiction | cbn [List.length]; lia].
Qed.
End SalesFacts.

(** ** Customers *)

Lemma StronglySorted_app_inv {A} (R : A -> A -> Prop) (l1 l2 : list A) :
  StronglySorted R (l1 ++ l2) ->
  forall x y, In x l1 -> In y l2 -> R x y.
Proof.
  induction l1 as [| a l1 IH]; cbn [app]; intros Hs x y Hx Hy; [contradiction |].
  inversion Hs as [| ? ? Hs' Hall]; subst.
  destruct Hx as [<- | Hx].
  - rewrite Forall_forall in Hall. apply Hall, in_or_app. now right.
  - now apply IH.
Qed.

Lemma account_sums_In (l : list row) (r : row) (k : string) :
  In r l -> row_account r = Some k ->
  In (k, account_total k l) (account_sums l).
Proof.
  intros Hr Hk.
  assert (Hin : In (k, r) (by_account l)).
  { unfold by_account. apply in_flat_map. exists r. split; [assumption |].
    rewrite Hk. now left. }
  pose proof (groupby_In_key String.eqb String.leb String.eqb_eq
                (fun kr : string * row => fst kr) (by_account l) (k, r) Hin)
    as Hg.
  cbn [fst] in Hg. unfold account_sums. apply in_map_iff.
  eexists. split; [| exact Hg]. cbn [fst snd].
  now rewrite by_account_total.
Qed.

Lemma account_sums_key (l : list row) (k : string) (v : Z) :
  In (k, v) (account_sums l) ->
  exists r, In r l /\ row_account r = Some k.
Proof.
  intros Hin.
  assert (Hk : In k (map fst (account_sums l)))
    by (apply in_map_iff; now exists (k, v)).
  unfold account_sums in Hk. rewrite map_map in Hk. cbn [fst] in Hk.
  apply (proj1 (groupby_keys_In String.eqb String.leb String.eqb_eq
                  (fun kr : string * row => fst kr) (by_account l) k)) in Hk.
  apply in_map_iff in Hk. destruct Hk as [[k' r] [Hk' Hr]]. cbn [fst] in Hk'.
  subst k'. unfold by_account in Hr. apply in_flat_map in Hr.
  destruct Hr as [r' [Hr' Hin']].
  destruct (row_account r') as [k'' |] eqn:Hacc; [| contradiction].
  destruct Hin' as [Heq | []]. injection Heq as -> ->.
  now exists r.
Qed.

Lemma account_sums_length (l : list row) (ks : list string) :
  (forall r k, In r l -> row_account r = Some k -> In k ks) ->
  (List.length (account_sums l) <= List.length ks)%nat.
Proof.
  intros Hks. rewrite <- (length_map fst (account_sums l)).
  apply NoDup_incl_length; [apply account_sums_keys_NoDup |].
  intros k Hk. apply in_map_iff in Hk. destruct Hk as [[k' v] [<- Hin]].
  destruct (account_sums_key l k' v Hin) as [r [Hr Hacc]].
  now apply (Hks r).
Qed.

Lemma sort_values_desc_In (l : list (string * Z)) (x : string * Z) :
  In x (sort_values_desc l) <-> In x l.
Proof.
  unfold sort_values_desc. split; intros H.
  - eapply Permutation_in; [apply sort_Permutation | exact H].
  - eapply Permutation_in; [apply Permutation_sym, sort_Permutation | exact H].
Qed.

Lemma sort_values_desc_length (l : list (string * Z)) :
  List.length (sort_values_desc l) = List.length l.
Proof.
  apply Permutation_length, sort_Permutation.
Qed.

Section CustomerFacts.
Variable gen : value -> option Timestamp.

Lemma rows_account_column (sales_data : list record)
    (date_context : option DateContext) (df0 df : DataFrame)
    (r : row) (k : string) :
  numeric_frame sales_data = Ok df0 ->
  filter_by_date_context gen df0 date_context = Ok df ->
  In r (rows df) -> row_account r = Some k ->
  has_account df = true.
Proof.
  intros H0 H1 Hr Hk.
  destruct (filter_rows_filter gen _ _ _ H1) as [[p Hp] [_ [_ ->]]].
  destruct (numeric_frame_rows _ _ H0) as [Hrows [_ ->]].
  rewrite Hp in Hr. apply filter_In in Hr. destruct Hr as [Hr _].
  rewrite Hrows in Hr. apply in_map_iff in Hr. destruct Hr as [r0 [<- Hr0]].
  unfold has_key. apply existsb_exists. exists r0. split; [assumption |].
  cbn [to_row row_account] in Hk. now rewrite Hk.
Qed.

Lemma customer_breakdown_top (sales_data : list record)
    (date_context : option DateContext) (s : SalesSummary)
    (df0 df : DataFrame) (r : row) (k : string) :
  calculate_sales gen sales_data date_context = Ok s ->
  numeric_frame sales_data = Ok df0 ->
  filter_by_date_context gen df0 date_context = Ok df ->
  In r (rows df) -> row_account r = Some k ->
  customer_breakdown s =
    firstn 10 (sort_values_desc (account_sums (rows df))).
Proof.
  intros Hs H0 H1 Hr Hk.
  assert (Hne : sales_data <> []) by (intros ->; discriminate).
  destruct (calculate_sales_Ok gen _ _ _ Hne Hs)
    as [df0' [df' [H0' [H1' [_ ->]]]]].
  rewrite H0 in H0'. injection H0' as <-.
  rewrite H1 in H1'. injection H1' as <-.
  cbn [customer_breakdown].
  rewrite (rows_account_column _ _ _ _ _ _ H0 H1 Hr Hk).
  apply top_customers_items.
Qed.

(** X14: the customer breakdown holds the largest sums: an account of the
    filtered rows that is left out has a sum no larger than any listed one,
    and then ten accounts are listed. *)
Theorem X14_top_ten_are_largest (sales_data : list record)
    (date_context : option DateContext) (s : SalesSummary)
    (df0 df : DataFrame) (r : row) (k : string) :
  calculate_sales gen sales_data date_context = Ok s ->
  numeric_frame sales_data = Ok df0 ->
  filter_by_date_context gen df0 date_context = Ok df ->
  In r (rows df) -> row_account r = Some k ->
  ~ In k (map fst (customer_breakdown s)) ->
  List.length (customer_breakdown s) = 10%nat /\
  forall k' v', In (k', v') (customer_breakdown s) ->
                account_total k (rows df) <= v'.
Proof.
  intros Hs H0 H1 Hr Hk Hout.
  rewrite (customer_breakdown_top _ _ _ _ _ _ _ Hs H0 H1 Hr Hk) in *.
  set (L := sort_values_desc (account_sums (rows df))) in *.
  assert (HL : In (k, account_total k (rows df)) L).
  { apply sort_values_desc_In. now apply (account_sums_In _ r). }
  assert (Hskip : In (k, account_total k (rows df)) (skipn 10 L)).
  { rewrite <- (firstn_skipn 10 L) in HL. apply in_app_or in HL.
    destruct HL as [HL | HL]; [| exact HL].
    exfalso. apply Hout. apply in_map_iff. now exists (k, account_total k (rows df)). }
  split.
  - assert (Hlen : (List.length (skipn 10 L) > 0)%nat).
    { destruct (skipn 10 L); [contradiction | cbn; lia]. }
    rewrite length_skipn in Hlen. rewrite length_firstn. lia.
  - intros k' v' Hin.
    pose proof (sort_values_desc_descending (account_sums (rows df))) as Hd.
    fold L in Hd. unfold descending in Hd.
    rewrite <- (firstn_skipn 10 L) in Hd.
    pose proof (StronglySorted_app_inv _ _ _ Hd _ _ Hin Hskip) as Hge.
    cbn [snd] in Hge. lia.
Qed.

(** X15: when the filtered rows have at most ten distinct accounts, every
    one of them is listed with its sum. *)
Theorem X15_all_accounts_listed (sales_data : list record)
    (date_context : option DateContext) (s : SalesSummary)
    (df0 df : DataFrame) (ks : list string) :
  calculate_sales gen sales_data date_context = Ok s ->
  numeric_frame sales_data = Ok df0 ->
  filter_by_date_context gen df0 date_context = Ok df ->
  (List.length ks <= 10)%nat ->
  (forall r k, In r (rows df) -> row_account r = Some k -> In k ks) ->
  forall r k, In r (rows df) -> row_account r = Some k ->
              In (k, account_total k (rows df)) (customer_breakdown s).
Proof.
  intros Hs H0 H1 Hlen Hks r k Hr Hk.
  rewrite (customer_breakdown_top _ _ _ _ _ _ _ Hs H0 H1 Hr Hk).
  rewrite firstn_all2.
  - apply sort_values_desc_In. now apply (account_sums_In _ r).
  - rewrite sort_values_desc_length.
    pose proof (account_sums_length (rows df) ks Hks). lia.
Qed.

(** X16: when some date of the filtered rows parses, [date_range] is the
    earliest and the latest parsed date, each formatted as DD-Mon-YY. *)
Theorem X16_date_range_extremes (sales_data : list record)
    (date_context : option DateContext) (s : SalesSummary)
    (df0 df : DataFrame) (r0 : row) (t0 : Timestamp) :
  calculate_sales gen sales_data date_context = Ok s ->
  numeric_frame sales_data = Ok df0 ->
  filter_by_date_context gen df0 date_context = Ok df ->
  In r0 (rows df) -> parse_date gen (row_date r0) = Some t0 ->
  exists lo hi,
    date_range s = strftime_dmy lo ++ " to " ++ strftime_dmy hi /\
    (exists r, In r (rows df) /\ parse_date gen (row_date r) = Some lo) /\
    (exists r, In r (rows df) /\ parse_date gen (row_date r) = Some hi) /\
    forall r t, In r (rows df) -> parse_date gen (row_date r) = Some t ->
                Timestamp_leb lo t = true /\ Timestamp_leb t hi = true.
Proof.
  intros Hs H0 H1 Hr0 Hp0.
  assert (Hne : sales_data <> []) by (intros ->; discriminate).
  destruct (calculate_sales_Ok gen _ _ _ Hne Hs)
    as [df0' [df' [H0' [H1' [_ ->]]]]].
  rewrite H0 in H0'. injection H0' as <-.
  rewrite H1 in H1'. injection H1' as <-.
  cbn [date_range]. unfold format_range.
  pose proof (proj2 (with_dates_In gen row_date (rows df) t0 r0)
                    (conj Hr0 Hp0)) as Hin0.
  assert (Hdates : forall t, In t (map fst (with_dates gen row_date (rows df)))
            <-> exists r, In r (rows df) /\ parse_date gen (row_date r) = Some t).
  { intros t. rewrite in_map_iff. split.
    - intros [[t' r] [<- Hin]]. apply with_dates_In in Hin. now exists r.
    - intros [r [Hr Hp]]. exists (t, r). split; [reflexivity |].
      now apply with_dates_In. }
  destruct (with_dates gen row_date (rows df)) as [| [t1 r1] rest];
    [contradiction |].
  cbn [map fst] in Hdates.
  destruct (fold_min_date (map fst rest) t1) as [Hlo_in Hlo].
  destruct (fold_max_date (map fst rest) t1) as [Hhi_in Hhi].
  exists (fold_left min_date (map fst rest) t1),
         (fold_left max_date (map fst rest) t1).
  split; [reflexivity |].
  split; [now apply Hdates |]. split; [now apply Hdates |].
  intros r t Hr Hp.
  assert (Ht : In t (t1 :: map fst rest)) by (apply Hdates; now exists r).
  split; [now apply Hlo | now apply Hhi].
Qed.

(** X17: records none of whose dates parses: without an active filter they
    are all counted and summed, with an empty monthly breakdown and the
    range "No dates"; with an active filter that names no month and no year
    everything is zero and empty. *)
Theorem X17_no_parseable_date (sales_data : list record)
    (date_context : option DateContext) :
  sales_data <> [] ->
  has_key amount sales_data = true -> has_key date sales_data = true ->
  (forall r, In r sales_data -> parse_date gen (record_date r) = None) ->
  (inactive date_context ->
   exists s, calculate_sales gen sales_data date_context = Ok s /\
     total_amount s = sum (map numeric_amount sales_data) /\
     voucher_count s = len sales_data /\
     monthly_breakdown s = [] /\ date_range s = "No dates") /\
  (forall ctx, date_context = Some ctx -> isDateSpecific ctx = true ->
     month_numbers (months ctx) = [] -> year_numbers (years ctx) = Ok [] ->
     calculate_sales gen sales_data date_context =
       Ok {| total_amount := 0;
             voucher_count := 0;
             monthly_breakdown := [];
             customer_breakdown := [];
             date_range := "No dates" |}).
Proof.
  intros Hne Ha Hd Hnone.
  assert (Hrows : forall r, In r (map to_row sales_data) ->
                            parse_date gen (row_date r) = None).
  { intros r Hr. apply in_map_iff in Hr. destruct Hr as [r0 [<- Hr0]].
    now apply Hnone. }
  rewrite (calculate_sales_frame _ _ _ _ (numeric_frame_Ok _ Ha)).
  split.
  - intros Hin. rewrite filter_inactive by assumption.
    cbn [bind has_date rows]. rewrite Hd. cbn [negb].
    eexists. split; [reflexivity |].
    cbn [total_amount voucher_count monthly_breakdown date_range].
    rewrite (with_dates_nil gen row_date _ Hrows).
    unfold sum_amount, len. rewrite map_map, length_map.
    repeat split; reflexivity.
  - intros ctx -> Hact _ Hy.
    erewrite filter_active_rows; [| exact Hact | exact Hd | exact Hy].
    cbn [bind has_date has_account with_rows rows]. rewrite Hd. cbn [negb].
    rewrite filter_none.
    + cbn. destruct (has_key account sales_data); reflexivity.
    + intros r Hr. unfold keeps. now rewrite (Hrows r Hr).
Qed.
End CustomerFacts.

(** * Further properties of the profit aggregation *)

Lemma dict_set_In {B} (k : string) (v : B) (d : list (string * B))
    (kv : string * B) :
  In kv (dict_set k v d) -> kv = (k, v) \/ In kv d.
Proof.
  induction d as [| [k' v'] d IH]; cbn [dict_set].
  - intros [<- | []]. now left.
  - destruct (String.eqb k k').
    + intros [<- | H]; [now left | right; now right].
    + intros [<- | H]; [right; now left |].
      destruct (IH H) as [-> | H']; [now left | right; now right].
Qed.

Lemma dict_of_In {B} (items : list (string * B)) (kv : string * B) :
  In kv (dict_of items) -> In kv items.
Proof.
  unfold dict_of.
  enough (H : forall d,
    In kv (fold_left (fun d kv => dict_set (fst kv) (snd kv) d) items d) ->
    In kv d \/ In kv items).
  { intros Hin. destruct (H [] Hin) as [[] | Hi]. exact Hi. }
  induction items as [| [k v] items IH]; intros d; cbn [fold_left fst snd].
  - now left.
  - intros Hin. destruct (IH _ Hin) as [Hd | Hi]; [| right; now right].
    destruct (dict_set_In _ _ _ _ Hd) as [-> | Hd']; [right; now left | now left].
Qed.

Lemma sum_sub {A} (f g : A -> Z) (l : list A) :
  sum (map (fun a => f a - g a) l) = sum (map f l) - sum (map g l).
Proof.
  induction l as [| a l IH]; [reflexivity |].
  cbn [map]. rewrite !sum_cons, IH. lia.
Qed.

Lemma sum_map_ext {A} (f g : A -> Z) (l : list A) :
  (forall a, In a l -> f a = g a) -> sum (map f l) = sum (map g l).
Proof.
  intros H. f_equal. apply map_ext_in. exact H.
Qed.

Lemma profit_by_month_items (l : list (Timestamp * tagged)) :
  (forall ta, In ta l -> in_bounds (fst ta) = true) ->
  profit_by_month l =
  map (fun pg : Period * list (Timestamp * tagged) =>
         (Period_str (fst pg),
          {| entry_revenue := sum_of_type Revenue (snd pg);
             entry_expense := sum_of_type Expense (snd pg);
             entry_profit :=
               sum_of_type Revenue (snd pg) - sum_of_type Expense (snd pg) |}))
      (groupby Period_eqb Period_leb
               (fun ta : Timestamp * tagged => to_period (fst ta)) l).
Proof.
  intros Hb. unfold profit_by_month. apply dict_of_NoDup.
  rewrite map_map. cbn [fst].
  rewrite <- (map_map fst Period_str). now apply month_keys_NoDup.
Qed.

(** The monthly sums of one type add up to the sum of that type. *)
Lemma sum_of_type_groups (ty : entry_type) (l : list (Timestamp * tagged)) :
  sum (map (fun pg : Period * list (Timestamp * tagged) =>
              sum_of_type ty (snd pg))
           (groupby Period_eqb Period_leb
                    (fun ta : Timestamp * tagged => to_period (fst ta)) l)) =
  sum_of_type ty l.
Proof.
  unfold sum_of_type.
  rewrite (sum_filter _ _ l).
  rewrite <- (groupby_sums Period_eqb Period_leb Period_eqb_eq
                (fun ta : Timestamp * tagged => to_period (fst ta))
                (fun ta => if entry_type_eqb (tagged_type (snd ta)) ty
                           then tagged_amount (snd ta) else 0) l).
  apply sum_map_ext. intros pg _. apply sum_filter.
Qed.

Lemma entry_type_eqb_eq (a b : entry_type) :
  entry_type_eqb a b = true <-> a = b.
Proof.
  destruct a, b; cbn; split; intros H; try reflexivity; discriminate.
Qed.

Lemma empty_sum (df : DataFrame) :
  has_amount df = true ->
  (if empty df then 0 else sum_amount (rows df)) = sum_amount (rows df).
Proof.
  intros Ha. unfold empty. destruct (rows df) as [| r l]; [reflexivity |].
  rewrite Ha, orb_true_r. reflexivity.
Qed.

Lemma tag_rows_facts (ty : entry_type) (df : DataFrame) (rr : list tagged) :
  tag_rows ty df = Ok rr ->
  (forall a, In a rr -> tagged_type a = ty) /\
  (if empty df then 0 else sum_amount (rows df)) = sum (map tagged_amount rr) /\
  (forall a, In a rr ->
     empty df = false /\ exists r, In r (rows df) /\ tagged_date a = row_date r).
Proof.
  unfold tag_rows. destruct (empty df) eqn:He.
  - intros H. injection H as <-. repeat split; contradiction.
  - destruct (has_date df); cbn [negb]; [| discriminate].
    intros H. injection H as <-. split; [| split].
    + intros a Ha. apply in_map_iff in Ha. now destruct Ha as [r [<- _]].
    + unfold sum_amount. now rewrite map_map.
    + intros a Ha. apply in_map_iff in Ha. destruct Ha as [r [<- Hr]].
      split; [reflexivity |]. now exists r.
Qed.

Section ProfitFacts.
Variable gen : value -> option Timestamp.

Lemma calculate_profit_Ok (revenue_data expense_data : list record)
    (date_context : option DateContext) (p : ProfitSummary) :
  calculate_profit gen revenue_data expense_data date_context = Ok p ->
  exists revenue_df expense_df revenue_rows expense_rows,
    prepare gen revenue_data date_context = Ok revenue_df /\
    prepare gen expense_data date_context = Ok expense_df /\
    tag_rows Revenue revenue_df = Ok revenue_rows /\
    tag_rows Expense expense_df = Ok expense_rows /\
    p = {| total_revenue :=
             if empty revenue_df then 0 else sum_amount (rows revenue_df);
           total_expenses :=
             if empty expense_df then 0 else sum_amount (rows expense_df);
           net_profit :=
             (if empty revenue_df then 0 else sum_amount (rows revenue_df)) -
             (if empty expense_df then 0 else sum_amount (rows expense_df));
           profit_breakdown :=
             profit_by_month
               (with_dates gen tagged_date (revenue_rows ++ expense_rows)%list);
           revenue_entries := len (rows revenue_df);
           expense_entries := len (rows expense_df) |}.
Proof.
  unfold calculate_profit.
  destruct (prepare gen revenue_data date_context) as [rdf | e] eqn:H1;
    cbn [bind]; [| discriminate].
  destruct (prepare gen expense_data date_context) as [edf | e] eqn:H2;
    cbn [bind]; [| discriminate].
  destruct (tag_rows Revenue rdf) as [rr | e] eqn:H3; cbn [bind];
    [| discriminate].
  destruct (tag_rows Expense edf) as [er | e] eqn:H4; cbn [bind];
    [| discriminate].
  intros H. injection H as <-. exists rdf, edf, rr, er.
  repeat split; assumption.
Qed.

Lemma prepare_nonempty (data : list record)
    (date_context : option DateContext) (df0 : DataFrame) :
  numeric_frame data = Ok df0 -> data <> [] ->
  prepare gen data date_context = filter_by_date_context gen df0 date_context.
Proof.
  intros H0 Hne. unfold prepare, empty. cbn [rows has_amount].
  destruct data as [| r data]; [contradiction |]. cbn [map].
  unfold numeric_frame in H0.
  destruct (has_key amount (r :: data)) eqn:Ha; [| discriminate].
  rewrite orb_true_r. cbn [orb negb].
  unfold numeric_frame. rewrite Ha. injection H0 as <-. reflexivity.
Qed.

Lemma prepare_empty_list (date_context : option DateContext) :
  prepare gen [] date_context =
    Ok {| has_date := false; has_amount := false; has_account := false;
          rows := [] |}.
Proof. reflexivity. Qed.

(** A frame that [prepare] returns is either left alone because it is
    empty, or the filtered numeric frame. *)
Lemma prepare_cases (data : list record)
    (date_context : option DateContext) (df : DataFrame) :
  prepare gen data date_context = Ok df ->
  empty df = true \/
  exists df0, numeric_frame data = Ok df0 /\
              filter_by_date_context gen df0 date_context = Ok df.
Proof.
  unfold prepare.
  set (raw := {| has_date := has_key date data;
                 has_amount := has_key amount data;
                 has_account := has_key account data;
                 rows := map to_row data |}).
  destruct (empty raw) eqn:He.
  - intros H. injection H as <-. now left.
  - destruct (numeric_frame data) as [df0 | e]; cbn [bind]; [| discriminate].
    intros H. right. now exists df0.
Qed.

Lemma prepare_has_amount (data : list record)
    (date_context : option DateContext) (df : DataFrame) :
  prepare gen data date_context = Ok df -> empty df = false ->
  has_amount df = true.
Proof.
  intros H He. destruct (prepare_cases _ _ _ H) as [He' | [df0 [H0 H1]]];
    [congruence |].
  destruct (filter_rows_filter gen _ _ _ H1) as [_ [_ [-> _]]].
  unfold numeric_frame in H0. destruct (has_key amount data); [| discriminate].
  now injection H0 as <-.
Qed.

(** X18: the revenue side of [calculate_profit] agrees with
    [calculate_sales] on the same records and context, and so does the
    expense side. *)
Theorem X18_profit_agrees_with_sales (data other : list record)
    (date_context : option DateContext) (s : SalesSummary) :
  calculate_sales gen data date_context = Ok s ->
  (forall p, calculate_profit gen data other date_context = Ok p ->
     total_revenue p = total_amount s /\ revenue_entries p = voucher_count s) /\
  (forall p, calculate_profit gen other data date_context = Ok p ->
     total_expenses p = total_amount s /\ expense_entries p = voucher_count s).
Proof.
  intros Hs.
  assert (Hprep : forall df, prepare gen data date_context = Ok df ->
    (if empty df then 0 else sum_amount (rows df)) = total_amount s /\
    len (rows df) = voucher_count s).
  { intros df Hdf. destruct data as [| r data].
    - injection Hs as <-. rewrite prepare_empty_list in Hdf.
      injection Hdf as <-. split; reflexivity.
    - assert (Hne : r :: data <> []) by discriminate.
      destruct (calculate_sales_Ok gen _ _ _ Hne Hs) as [df0 [df' [H0 [H1 [_ ->]]]]].
      rewrite (prepare_nonempty _ _ _ H0 Hne), H1 in Hdf. injection Hdf as <-.
      cbn [total_amount voucher_count]. split; [| reflexivity].
      apply empty_sum.
      destruct (filter_rows_filter gen _ _ _ H1) as [_ [_ [-> _]]].
      unfold numeric_frame in H0.
      destruct (has_key amount (r :: data)); [| discriminate].
      now injection H0 as <-. }
  split; intros p Hp;
    destruct (calculate_profit_Ok _ _ _ _ Hp)
      as [rdf [edf [rr [er [Hr [He [_ [_ ->]]]]]]]];
    cbn [total_revenue total_expenses revenue_entries expense_entries].
  - now apply Hprep.
  - now apply Hprep.
Qed.

(** X19: without expense records there are no expenses: the net profit is
    the revenue, and every monthly entry has expense 0 and profit equal to
    its revenue. *)
Theorem X19_no_expenses (revenue_data : list record)
    (date_context : option DateContext) (p : ProfitSummary) :
  calculate_profit gen revenue_data [] date_context = Ok p ->
  total_expenses p = 0 /\ expense_entries p = 0 /\
  net_profit p = total_revenue p /\
  forall k e, In (k, e) (profit_breakdown p) ->
              entry_expense e = 0 /\ entry_profit e = entry_revenue e.
Proof.
  intros Hp.
  destruct (calculate_profit_Ok _ _ _ _ Hp)
    as [rdf [edf [rr [er [Hr [He [Hrr [Her ->]]]]]]]].
  rewrite prepare_empty_list in He. injection He as <-.
  injection Her as <-. rewrite app_nil_r.
  cbn [total_expenses expense_entries net_profit total_revenue
       profit_breakdown empty rows].
  assert (Hall : forall k e,
    In (k, e) (profit_by_month (with_dates gen tagged_date rr)) ->
    entry_expense e = 0 /\ entry_profit e = entry_revenue e).
  { intros k e Hin. unfold profit_by_month in Hin. apply dict_of_In in Hin.
    apply in_map_iff in Hin. destruct Hin as [[q g] [Heq Hg]].
    injection Heq as _ <-. cbn [entry_expense entry_profit entry_revenue snd].
    assert (Hz : sum_of_type Expense g = 0).
    { unfold sum_of_type. rewrite sum_filter. apply sum_zero.
      intros [t a] Hta. cbn [snd].
      apply groupby_group in Hg. subst g. apply filter_In in Hta.
      destruct Hta as [Hta _]. apply with_dates_In in Hta.
      destruct Hta as [Ha _].
      destruct (tag_rows_facts _ _ _ Hrr) as [Hty _].
      now rewrite (Hty a Ha). }
    rewrite Hz. split; [reflexivity | lia]. }
  split; [reflexivity |]. split; [reflexivity |]. split; [lia | exact Hall].
Qed.
End ProfitFacts.

Section MonthlyProfit.
Variable gen : value -> option Timestamp.

Lemma tagged_dated (data : list record) (date_context : option DateContext)
    (df : DataFrame) (ty : entry_type) (rr : list tagged) :
  active date_context ->
  prepare gen data date_context = Ok df -> tag_rows ty df = Ok rr ->
  forall a, In a rr -> is_some (parse_date gen (tagged_date a)) = true.
Proof.
  intros Hact Hp Ht a Ha.
  destruct (tag_rows_facts _ _ _ Ht) as [_ [_ Hrows]].
  destruct (Hrows a Ha) as [He [r [Hr ->]]].
  destruct (prepare_cases gen _ _ _ Hp) as [He' | [df0 [_ H1]]]; [congruence |].
  destruct (filter_active gen _ _ _ Hact H1) as [Hall _].
  rewrite Forall_forall in Hall. now apply Hall.
Qed.

(** The sum of one type over the dated entries, when every entry is
    dated. *)
Lemma sum_of_type_dated (ty : entry_type) (all : list tagged) :
  (forall a, In a all -> is_some (parse_date gen (tagged_date a)) = true) ->
  sum_of_type ty (with_dates gen tagged_date all) =
  sum (map (fun a => if entry_type_eqb (tagged_type a) ty
                     then tagged_amount a else 0) all).
Proof.
  intros Hall. unfold sum_of_type. rewrite sum_filter.
  rewrite <- (map_map snd (fun a => if entry_type_eqb (tagged_type a) ty
                                    then tagged_amount a else 0)).
  rewrite with_dates_snd. now rewrite filter_all.
Qed.

Lemma sum_of_own_type (ty : entry_type) (l : list tagged) :
  (forall a, In a l -> tagged_type a = ty) ->
  sum (map (fun a => if entry_type_eqb (tagged_type a) ty
                     then tagged_amount a else 0) l) =
  sum (map tagged_amount l).
Proof.
  intros H. apply sum_map_ext. intros a Ha. rewrite (H a Ha).
  now replace (entry_type_eqb ty ty) with true
    by (symmetry; now apply entry_type_eqb_eq).
Qed.

Lemma sum_of_other_type (ty ty' : entry_type) (l : list tagged) :
  ty' <> ty -> (forall a, In a l -> tagged_type a = ty') ->
  sum (map (fun a => if entry_type_eqb (tagged_type a) ty
                     then tagged_amount a else 0) l) = 0.
Proof.
  intros Hne H. apply sum_zero. intros a Ha. rewrite (H a Ha).
  destruct (entry_type_eqb ty' ty) eqn:He; [| reflexivity].
  apply entry_type_eqb_eq in He. contradiction.
Qed.

(** X20: for amounts that integers represent exactly, with an active date
    filter the profits of the monthly breakdown add up to the net profit. *)
Theorem X20_monthly_profits (revenue_data expense_data : list record)
    (date_context : option DateContext) (amounts : list Z)
    (p : ProfitSummary) :
  exact_amounts (revenue_data ++ expense_data) amounts ->
  active date_context ->
  calculate_profit gen revenue_data expense_data date_context = Ok p ->
  total_month_profit (profit_breakdown p) = net_profit p.
Proof.
  intros _ Hact Hp.
  destruct (calculate_profit_Ok gen _ _ _ _ Hp)
    as [rdf [edf [rr [er [Hr [He [Hrr [Her ->]]]]]]]].
  cbn [profit_breakdown net_profit].
  set (all := (rr ++ er)%list).
  assert (Hall : forall a, In a all ->
            is_some (parse_date gen (tagged_date a)) = true).
  { intros a Ha. apply in_app_or in Ha. destruct Ha as [Ha | Ha].
    - exact (tagged_dated _ _ _ _ _ Hact Hr Hrr a Ha).
    - exact (tagged_dated _ _ _ _ _ Hact He Her a Ha). }
  rewrite profit_by_month_items by apply with_dates_in_bounds.
  unfold total_month_profit. rewrite map_map. cbn [snd entry_profit].
  rewrite (sum_sub (fun pg : Period * list (Timestamp * tagged) =>
                      sum_of_type Revenue (snd pg))
                   (fun pg => sum_of_type Expense (snd pg))).
  rewrite !sum_of_type_groups, !sum_of_type_dated by assumption.
  destruct (tag_rows_facts _ _ _ Hrr) as [Htr [-> _]].
  destruct (tag_rows_facts _ _ _ Her) as [Hte [-> _]].
  subst all. rewrite !map_app, !sum_app.
  rewrite (sum_of_own_type Revenue rr Htr).
  rewrite (sum_of_other_type Revenue Expense er) by (discriminate || assumption).
  rewrite (sum_of_other_type Expense Revenue rr) by (discriminate || assumption).
  rewrite (sum_of_own_type Expense er Hte).
  lia.
Qed.
End MonthlyProfit.

(** * The further properties at concrete requests *)

Lemma X1_witness :
  has_hyphen "15-Oct-23" = true /\
  parse_date no_generic (VStr "15-Oct-23") = Some (mkTimestamp 2023 10 15) /\
  valid_date (mkTimestamp 2023 10 15) = true /\
  1969 <= year (mkTimestamp 2023 10 15) <= 2068 /\
  1 <= month (mkTimestamp 2023 10 15) <= 12 /\
  1 <= day (mkTimestamp 2023 10 15) <= 31.
Proof.
  split; [reflexivity |]. split; [reflexivity |].
  exact (X1_strict_dates_valid no_generic "15-Oct-23" (mkTimestamp 2023 10 15)
                               eq_refl eq_refl).
Defined.

Lemma X2_witness :
  lower "15-OCT-23" = lower "15-oct-23" /\ has_hyphen "15-OCT-23" = true /\
  parse_date no_generic (VStr "15-OCT-23") =
  parse_date no_generic (VStr "15-oct-23").
Proof.
  split; [reflexivity |]. split; [reflexivity |].
  exact (X2_strict_parse_ignores_case no_generic "15-OCT-23" "15-oct-23"
                                      eq_refl eq_refl).
Defined.

Lemma X3_witness :
  has_hyphen "5-oct-23" = true /\
  parse_date no_generic (VStr "5-oct-23") = Some (mkTimestamp 2023 10 5) /\
  strftime_dmy (mkTimestamp 2023 10 5) = "05-Oct-23" /\
  parse_date no_generic (VStr (strftime_dmy (mkTimestamp 2023 10 5))) =
    Some (mkTimestamp 2023 10 5).
Proof.
  split; [reflexivity |]. split; [reflexivity |]. split; [reflexivity |].
  exact (X3_formatted_date_reads_back no_generic "5-oct-23"
                                      (mkTimestamp 2023 10 5) eq_refl eq_refl).
Defined.

Lemma X4_witness :
  isDateSpecific jan_context = true /\ has_date scenario_frame = true /\
  year_numbers (years jan_context) = Ok [] /\
  datetimelike no_generic (rows scenario_frame) /\
  filter_by_date_context no_generic scenario_frame (Some jan_context) =
    Ok (with_rows scenario_frame
          (filter (keeps no_generic (month_numbers (months jan_context)) [])
                  (rows scenario_frame))).
Proof.
  assert (Hdt : datetimelike no_generic (rows scenario_frame)).
  { eexists. exists (mkTimestamp 2023 1 1). split; [simpl; now left | reflexivity]. }
  split; [reflexivity |]. split; [reflexivity |]. split; [reflexivity |].
  split; [exact Hdt |].
  exact (X4_filter_keeps no_generic scenario_frame jan_context []
                         eq_refl eq_refl eq_refl Hdt).
Defined.

Lemma X5_witness :
  filter_by_date_context no_generic scenario_frame scenario_jan = Ok jan_frame /\
  rows jan_frame <> [] /\
  filter_by_date_context no_generic jan_frame scenario_jan = Ok jan_frame.
Proof.
  assert (H : filter_by_date_context no_generic scenario_frame scenario_jan
              = Ok jan_frame) by (vm_compute; reflexivity).
  assert (Hne : rows jan_frame <> []) by (simpl; discriminate).
  split; [exact H |]. split; [exact Hne |].
  exact (X5_filter_idempotent no_generic scenario_frame jan_frame scenario_jan
                              H Hne).
Defined.

Lemma X6_witness :
  filter_by_date_context no_generic scenario_frame scenario_jan = Ok jan_frame /\
  (exists p, rows jan_frame = filter p (rows scenario_frame)) /\
  (forall r, In r (rows jan_frame) -> In r (rows scenario_frame)) /\
  len (rows jan_frame) <= len (rows scenario_frame) /\
  has_date jan_frame = has_date scenario_frame /\
  has_account jan_frame = has_account scenario_frame.
Proof.
  assert (H : filter_by_date_context no_generic scenario_frame scenario_jan
              = Ok jan_frame) by (vm_compute; reflexivity).
  split; [exact H |].
  exact (X6_filter_only_drops no_generic scenario_frame jan_frame scenario_jan H).
Defined.

Lemma X7_witness :
  isDateSpecific month_13 = true /\
  month_numbers (months month_13) = [13] /\
  filter_by_date_context no_generic scenario_frame (Some month_13) =
    Ok (no_rows scenario_frame) /\
  rows (no_rows scenario_frame) = [].
Proof.
  split; [reflexivity |]. split; [reflexivity |].
  assert (H : filter_by_date_context no_generic scenario_frame (Some month_13)
              = Ok (no_rows scenario_frame)) by (vm_compute; reflexivity).
  split; [exact H |].
  refine (proj1 (X7_months_out_of_range no_generic scenario_frame
                   (no_rows scenario_frame) month_13 eq_refl _ _ H)).
  - simpl. discriminate.
  - simpl. intros m [<- | []]. right. lia.
Defined.

Lemma X8_witness :
  0 <= 23 < 100 /\ two_digits 23 = "23" /\
  year_number (VStr "23") = Ok [2023] /\
  filter_by_date_context no_generic scenario_frame
    (Some {| isDateSpecific := true; months := []; years := [VStr "23"] |}) =
  filter_by_date_context no_generic scenario_frame
    (Some {| isDateSpecific := true; months := []; years := [VInt 2023] |}).
Proof.
  assert (Hn : 0 <= 23 < 100) by lia.
  split; [exact Hn |]. split; [reflexivity |].
  exact (X8_two_character_year no_generic scenario_frame [] 23 Hn).
Defined.

Lemma X9_witness :
  isDateSpecific year_99 = true /\
  year_numbers (years year_99) = Ok [2099] /\
  parse_date no_generic (row_date row_1999) = Some (mkTimestamp 1999 10 15) /\
  filter_by_date_context no_generic frame_1999 (Some year_99) =
    Ok (no_rows frame_1999) /\
  rows (no_rows frame_1999) = [].
Proof.
  split; [reflexivity |]. split; [reflexivity |]. split; [reflexivity |].
  assert (H : filter_by_date_context no_generic frame_1999 (Some year_99)
              = Ok (no_rows frame_1999)) by (vm_compute; reflexivity).
  split; [exact H |].
  refine (X9_years_outside_strict_range no_generic frame_1999
            (no_rows frame_1999) year_99 [2099] eq_refl eq_refl _ _ _ H).
  - discriminate.
  - intros y [<- | []]. right. lia.
  - intros r [<- | []]. exists "15-Oct-99". split; reflexivity.
Defined.

Lemma X10_witness :
  scenario_sales <> [] /\
  has_key amount scenario_sales = true /\
  has_key date scenario_sales = true /\
  year_numbers (years jan_context) = Ok [] /\
  datetimelike no_generic (map to_row scenario_sales) /\
  exists s, calculate_sales no_generic scenario_sales (Some jan_context) = Ok s.
Proof.
  assert (Hne : scenario_sales <> []) by (unfold scenario_sales; discriminate).
  assert (Hdt : datetimelike no_generic (map to_row scenario_sales)).
  { eexists. exists (mkTimestamp 2023 1 1). split; [simpl; now left | reflexivity]. }
  split; [exact Hne |]. split; [reflexivity |]. split; [reflexivity |].
  split; [reflexivity |]. split; [exact Hdt |].
  refine (proj2 (X10_sales_success no_generic scenario_sales (Some jan_context)
                   Hne) eq_refl eq_refl _).
  right. exists jan_context, []. split; [reflexivity |].
  split; [reflexivity | exact Hdt].
Defined.

Lemma X11_witness :
  scenario_sales <> [] /\
  has_key amount scenario_sales = true /\
  has_key date scenario_sales = true /\
  datetimelike no_generic (map to_row scenario_sales) /\
  In (VStr "abc") (years year_abc) /\ py_int "abc" = None /\
  calculate_sales no_generic scenario_sales (Some year_abc) = Err ValueError.
Proof.
  assert (Hne : scenario_sales <> []) by (unfold scenario_sales; discriminate).
  assert (Hdt : datetimelike no_generic (map to_row scenario_sales)).
  { eexists. exists (mkTimestamp 2023 1 1). split; [simpl; now left | reflexivity]. }
  split; [exact Hne |]. split; [reflexivity |]. split; [reflexivity |].
  split; [exact Hdt |].
  assert (Hin : In (VStr "abc") (years year_abc)) by (simpl; now left).
  split; [exact Hin |]. split; [reflexivity |].
  exact (proj2 (proj2 (X11_sales_errors no_generic scenario_sales
                         (Some year_abc) Hne))
               eq_refl eq_refl year_abc "abc" eq_refl eq_refl Hdt Hin eq_refl).
Defined.

Lemma X12_witness :
  exact_amounts scenario_sales [100; 200; 50] /\
  calculate_sales no_generic scenario_sales scenario_jan = Ok jan_summary /\
  active scenario_jan /\
  total_month_amount (monthly_breakdown jan_summary) = 300 /\
  total_amount jan_summary = 300.
Proof.
  assert (Hex : exact_amounts scenario_sales [100; 200; 50]).
  { split; [reflexivity | vm_compute; discriminate]. }
  assert (H : calculate_sales no_generic scenario_sales scenario_jan
              = Ok jan_summary) by (vm_compute; reflexivity).
  assert (Hact : active scenario_jan) by (eexists; split; reflexivity).
  split; [exact Hex |]. split; [exact H |]. split; [exact Hact |].
  split; [| reflexivity].
  exact (proj1 (X12_monthly_amounts no_generic scenario_sales scenario_jan
                  [100; 200; 50] jan_summary Hex H) Hact).
Defined.

Lemma X13_witness :
  calculate_sales no_generic scenario_sales None = Ok scenario_summary /\
  (exists periods,
     map fst (monthly_breakdown scenario_summary) = map Period_str periods /\
     StronglySorted (fun p q => Period_ltb p q = true) periods) /\
  NoDup (map fst (monthly_breakdown scenario_summary)) /\
  (forall k e, In (k, e) (monthly_breakdown scenario_summary) ->
               1 <= entry_count e).
Proof.
  assert (H : calculate_sales no_generic scenario_sales None
              = Ok scenario_summary) by (vm_compute; reflexivity).
  split; [exact H |].
  exact (X13_month_keys_ascending no_generic scenario_sales None
                                  scenario_summary H).
Defined.

Lemma X14_witness :
  calculate_sales no_generic eleven_accounts None = Ok eleven_summary /\
  numeric_frame eleven_accounts = Ok eleven_frame /\
  filter_by_date_context no_generic eleven_frame None = Ok eleven_frame /\
  In (to_row (sale "c01" 1)) (rows eleven_frame) /\
  row_account (to_row (sale "c01" 1)) = Some "c01" /\
  ~ In "c01" (map fst (customer_breakdown eleven_summary)) /\
  List.length (customer_breakdown eleven_summary) = 10%nat /\
  forall k' v', In (k', v') (customer_breakdown eleven_summary) ->
                account_total "c01" (rows eleven_frame) <= v'.
Proof.
  assert (H : calculate_sales no_generic eleven_accounts None
              = Ok eleven_summary) by (vm_compute; reflexivity).
  assert (Hin : In (to_row (sale "c01" 1)) (rows eleven_frame))
    by (simpl; now left).
  assert (Hout : ~ In "c01" (map fst (customer_breakdown eleven_summary))).
  { simpl. intros Hc.
    repeat (destruct Hc as [Hc | Hc]; [discriminate |]). exact Hc. }
  split; [exact H |]. split; [reflexivity |]. split; [reflexivity |].
  split; [exact Hin |]. split; [reflexivity |]. split; [exact Hout |].
  exact (X14_top_ten_are_largest no_generic eleven_accounts None eleven_summary
           eleven_frame eleven_frame (to_row (sale "c01" 1)) "c01"
           H eq_refl eq_refl Hin eq_refl Hout).
Defined.

Lemma X15_witness :
  calculate_sales no_generic scenario_sales None = Ok scenario_summary /\
  numeric_frame scenario_sales = Ok scenario_frame /\
  filter_by_date_context no_generic scenario_frame None = Ok scenario_frame /\
  In ("A", account_total "A" (rows scenario_frame))
     (customer_breakdown scenario_summary) /\
  account_total "A" (rows scenario_frame) = 150.
Proof.
  assert (H : calculate_sales no_generic scenario_sales None
              = Ok scenario_summary) by (vm_compute; reflexivity).
  split; [exact H |]. split; [reflexivity |]. split; [reflexivity |].
  split; [| reflexivity].
  refine (X15_all_accounts_listed no_generic scenario_sales None
            scenario_summary scenario_frame scenario_frame ["A"; "B"]
            H eq_refl eq_refl _ _
            {| row_date := VStr "01-Jan-23"; row_amount := 100;
               row_account := Some "A" |} "A" _ eq_refl).
  - simpl. lia.
  - intros r k Hr Hk. simpl in Hr.
    destruct Hr as [<- | [<- | [<- | []]]]; injection Hk as <-;
      simpl; auto.
  - simpl. now left.
Defined.

Lemma X16_witness :
  calculate_sales no_generic scenario_sales None = Ok scenario_summary /\
  numeric_frame scenario_sales = Ok scenario_frame /\
  filter_by_date_context no_generic scenario_frame None = Ok scenario_frame /\
  exists lo hi,
    date_range scenario_summary = strftime_dmy lo ++ " to " ++ strftime_dmy hi /\
    (exists r, In r (rows scenario_frame) /\
               parse_date no_generic (row_date r) = Some lo) /\
    (exists r, In r (rows scenario_frame) /\
               parse_date no_generic (row_date r) = Some hi) /\
    forall r t, In r (rows scenario_frame) ->
                parse_date no_generic (row_date r) = Some t ->
                Timestamp_leb lo t = true /\ Timestamp_leb t hi = true.
Proof.
  assert (H : calculate_sales no_generic scenario_sales None
              = Ok scenario_summary) by (vm_compute; reflexivity).
  split; [exact H |]. split; [reflexivity |]. split; [reflexivity |].
  refine (X16_date_range_extremes no_generic scenario_sales None
            scenario_summary scenario_frame scenario_frame
            {| row_date := VStr "01-Jan-23"; row_amount := 100;
               row_account := Some "A" |} (mkTimestamp 2023 1 1)
            H eq_refl eq_refl _ eq_refl).
  simpl. now left.
Defined.

Lemma X17_witness :
  iso_sales <> [] /\
  has_key amount iso_sales = true /\ has_key date iso_sales = true /\
  (forall r, In r iso_sales -> parse_date no_generic (record_date r) = None) /\
  (exists s, calculate_sales no_generic iso_sales None = Ok s /\
     total_amount s = sum (map numeric_amount iso_sales) /\
     voucher_count s = len iso_sales /\
     monthly_breakdown s = [] /\ date_range s = "No dates").
Proof.
  assert (Hne : iso_sales <> []) by (unfold iso_sales; discriminate).
  assert (Hnone : forall r, In r iso_sales ->
                            parse_date no_generic (record_date r) = None).
  { intros r [<- | [<- | []]]; reflexivity. }
  split; [exact Hne |]. split; [reflexivity |]. split; [reflexivity |].
  split; [exact Hnone |].
  exact (proj1 (X17_no_parseable_date no_generic iso_sales None
                  Hne eq_refl eq_refl Hnone) I).
Defined.

Lemma X18_witness :
  calculate_sales no_generic scenario_revenue None = Ok revenue_summary /\
  calculate_profit no_generic scenario_revenue scenario_expense None =
    Ok scenario_profit /\
  total_revenue scenario_profit = total_amount revenue_summary /\
  revenue_entries scenario_profit = voucher_count revenue_summary.
Proof.
  assert (Hs : calculate_sales no_generic scenario_revenue None
               = Ok revenue_summary) by (vm_compute; reflexivity).
  assert (Hp : calculate_profit no_generic scenario_revenue scenario_expense None
               = Ok scenario_profit) by (vm_compute; reflexivity).
  split; [exact Hs |]. split; [exact Hp |].
  exact (proj1 (X18_profit_agrees_with_sales no_generic scenario_revenue
                  scenario_expense None revenue_summary Hs)
               scenario_profit Hp).
Defined.

Lemma X19_witness :
  calculate_profit no_generic scenario_revenue [] None =
    Ok revenue_only_profit /\
  total_expenses revenue_only_profit = 0 /\
  expense_entries revenue_only_profit = 0 /\
  net_profit revenue_only_profit = total_revenue revenue_only_profit /\
  forall k e, In (k, e) (profit_breakdown revenue_only_profit) ->
              entry_expense e = 0 /\ entry_profit e = entry_revenue e.
Proof.
  assert (Hp : calculate_profit no_generic scenario_revenue [] None
               = Ok revenue_only_profit) by (vm_compute; reflexivity).
  split; [exact Hp |].
  exact (X19_no_expenses no_generic scenario_revenue None
                         revenue_only_profit Hp).
Defined.

Lemma X20_witness :
  exact_amounts (scenario_revenue ++ scenario_expense) [500; 200] /\
  active scenario_jan /\
  calculate_profit no_generic scenario_revenue scenario_expense scenario_jan =
    Ok scenario_profit /\
  total_month_profit (profit_breakdown scenario_profit) = 300 /\
  net_profit scenario_profit = 300.
Proof.
  assert (Hex : exact_amounts (scenario_revenue ++ scenario_expense)
                              [500; 200]).
  { split; [reflexivity | vm_compute; discriminate]. }
  assert (Hp : calculate_profit no_generic scenario_revenue scenario_expense
                 scenario_jan = Ok scenario_profit) by (vm_compute; reflexivity).
  assert (Hact : active scenario_jan) by (eexists; split; reflexivity).
  split; [exact Hex |]. split; [exact Hact |]. split; [exact Hp |].
  split; [| reflexivity].
  exact (X20_monthly_profits no_generic scenario_revenue scenario_expense
           scenario_jan [500; 200] scenario_profit Hex Hact Hp).
Defined.

(** * Further properties: amounts that are not numbers, customer keys *)

Section MoreSalesFacts.
Variable gen : value -> option Timestamp.

(** The rows a context keeps are chosen row by row. *)
Lemma filter_predicate (date_context : option DateContext) :
  exists p, forall df df',
    filter_by_date_context gen df date_context = Ok df' ->
    rows df' = filter p (rows df).
Proof.
  destruct date_context as [ctx |].
  - destruct (isDateSpecific ctx) eqn:Hact.
    + destruct (year_numbers (years ctx)) as [ys | e] eqn:Hy.
      * exists (keeps gen (month_numbers (months ctx)) ys). intros df df' H.
        destruct (filter_active_inv gen _ _ _ Hact H) as [_ [ys' [Hy' ->]]].
        rewrite Hy in Hy'. now injection Hy' as <-.
      * exists (fun _ => true). intros df df' H.
        destruct (filter_active_inv gen _ _ _ Hact H) as [_ [ys' [Hy' _]]].
        congruence.
    + exists (fun _ => true). intros df df' H.
      rewrite (filter_inactive gen df (Some ctx) Hact) in H. injection H as <-.
      symmetry. now apply filter_all.
  - exists (fun _ => true). intros df df' H. injection H as <-.
    symmetry. now apply filter_all.
Qed.

Lemma sales_total (sales_data : list record)
    (date_context : option DateContext) (s : SalesSummary)
    (p : row -> bool) :
  (forall df df', filter_by_date_context gen df date_context = Ok df' ->
                  rows df' = filter p (rows df)) ->
  calculate_sales gen sales_data date_context = Ok s ->
  total_amount s = sum_amount (filter p (map to_row sales_data)) /\
  voucher_count s = len (filter p (map to_row sales_data)).
Proof.
  intros Hp Hs. destruct sales_data as [| r data].
  - injection Hs as <-. split; reflexivity.
  - assert (Hne : r :: data <> []) by discriminate.
    destruct (calculate_sales_Ok gen _ _ _ Hne Hs) as [df0 [df [H0 [H1 [_ ->]]]]].
    cbn [total_amount voucher_count]. rewrite (Hp _ _ H1).
    destruct (numeric_frame_rows _ _ H0) as [-> _]. split; reflexivity.
Qed.

(** X21: among amounts that integers represent exactly, a record whose
    amount is missing, null or a word adds nothing to the total: the total
    is the same with and without it, and without an active filter the
    record is still counted. *)
Theorem X21_non_numeric_amount (before after : list record) (r : record)
    (date_context : option DateContext) (amounts : list Z)
    (s s' : SalesSummary) :
  not_a_number r ->
  exact_amounts (before ++ r :: after) amounts ->
  calculate_sales gen (before ++ r :: after) date_context = Ok s ->
  calculate_sales gen (before ++ after) date_context = Ok s' ->
  total_amount s = total_amount s' /\
  (inactive date_context -> voucher_count s = voucher_count s' + 1).
Proof.
  intros Hr _ Hs Hs'.
  assert (H0 : row_amount (to_row r) = 0).
  { cbn [to_row row_amount]. apply coerced_numeric.
    unfold coerced, not_a_number in *.
    destruct (amount r) as [[| w | m] |];
      [reflexivity | now rewrite Hr | contradiction | reflexivity]. }
  split.
  - destruct (filter_predicate date_context) as [p Hp].
    destruct (sales_total _ _ _ p Hp Hs) as [-> _].
    destruct (sales_total _ _ _ p Hp Hs') as [-> _].
    unfold sum_amount. rewrite !map_app, !filter_app, !map_app, !sum_app.
    cbn [map filter]. destruct (p (to_row r)); cbn [app map].
    + rewrite sum_cons, H0. lia.
    + reflexivity.
  - intros Hin.
    assert (Hp : forall df df',
              filter_by_date_context gen df date_context = Ok df' ->
              rows df' = filter (fun _ => true) (rows df)).
    { intros df df' H. rewrite filter_inactive in H by assumption.
      injection H as <-. symmetry. now apply filter_all. }
    destruct (sales_total _ _ _ _ Hp Hs) as [_ ->].
    destruct (sales_total _ _ _ _ Hp Hs') as [_ ->].
    rewrite !filter_all by reflexivity. unfold len.
    rewrite !length_map, !length_app. cbn [List.length]. lia.
Qed.

(** X22: the customer breakdown never lists an account twice, and lists only
    accounts that a row of the filtered frame carries. *)
Theorem X22_customer_keys (sales_data : list record)
    (date_context : option DateContext) (s : SalesSummary)
    (df0 df : DataFrame) :
  calculate_sales gen sales_data date_context = Ok s ->
  numeric_frame sales_data = Ok df0 ->
  filter_by_date_context gen df0 date_context = Ok df ->
  NoDup (map fst (customer_breakdown s)) /\
  forall k v, In (k, v) (customer_breakdown s) ->
              exists r, In r (rows df) /\ row_account r = Some k.
Proof.
  intros Hs H0 H1.
  assert (Hne : sales_data <> []) by (intros ->; discriminate).
  destruct (calculate_sales_Ok gen _ _ _ Hne Hs)
    as [df0' [df' [H0' [H1' [_ ->]]]]].
  rewrite H0 in H0'. injection H0' as <-.
  rewrite H1 in H1'. injection H1' as <-.
  cbn [customer_breakdown].
  destruct (has_account df); [| split; [constructor | contradiction]].
  rewrite top_customers_items. split.
  - apply NoDup_map_firstn.
    eapply Permutation_NoDup; [| apply account_sums_keys_NoDup].
    apply Permutation_map, Permutation_sym, sort_Permutation.
  - intros k v Hin. apply In_firstn in Hin.
    apply (proj1 (sort_values_desc_In _ _)) in Hin.
    exact (account_sums_key _ k v Hin).
Qed.
End MoreSalesFacts.

Lemma X21_witness :
  not_a_number bad_amount_record /\
  exact_amounts (scenario_sales ++ bad_amount_record :: [])
                [100; 200; 50; 0] /\
  calculate_sales no_generic (scenario_sales ++ bad_amount_record :: []) None =
    Ok bad_amount_summary /\
  calculate_sales no_generic (scenario_sales ++ []) None = Ok scenario_summary /\
  total_amount bad_amount_summary = total_amount scenario_summary /\
  voucher_count bad_amount_summary = voucher_count scenario_summary + 1.
Proof.
  assert (Hr : not_a_number bad_amount_record) by reflexivity.
  assert (Hex : exact_amounts (scenario_sales ++ bad_amount_record :: [])
                              [100; 200; 50; 0]).
  { split; [reflexivity | vm_compute; discriminate]. }
  assert (Hs : calculate_sales no_generic
                 (scenario_sales ++ bad_amount_record :: []) None
               = Ok bad_amount_summary) by (vm_compute; reflexivity).
  assert (Hs' : calculate_sales no_generic (scenario_sales ++ []) None
                = Ok scenario_summary) by (vm_compute; reflexivity).
  split; [exact Hr |]. split; [exact Hex |].
  split; [exact Hs |]. split; [exact Hs' |].
  pose proof (X21_non_numeric_amount no_generic scenario_sales []
                bad_amount_record None [100; 200; 50; 0]
                bad_amount_summary scenario_summary
                Hr Hex Hs Hs') as [Ht Hc].
  split; [exact Ht | exact (Hc I)].
Defined.

Lemma X22_witness :
  calculate_sales no_generic scenario_sales None = Ok scenario_summary /\
  numeric_frame scenario_sales = Ok scenario_frame /\
  filter_by_date_context no_generic scenario_frame None = Ok scenario_frame /\
  NoDup (map fst (customer_breakdown scenario_summary)) /\
  forall k v, In (k, v) (customer_breakdown scenario_summary) ->
              exists r, In r (rows scenario_frame) /\ row_account r = Some k.
Proof.
  assert (H : calculate_sales no_generic scenario_sales None
              = Ok scenario_summary) by (vm_compute; reflexivity).
  split; [exact H |]. split; [reflexivity |]. split; [reflexivity |].
  exact (X22_customer_keys no_generic scenario_sales None scenario_summary
                           scenario_frame scenario_frame H eq_refl eq_refl).
Defined.
